(** * Resource lifecycle of two AWS provider resources

    A shallow embedding of
    - the S3 directory bucket resource (package s3: schema, name validator,
      Create / Read / Delete, the data_redundancy plan modifier), and
    - the AppFlow connector profile resource (package appflow:
      Create / Read / Update / Delete, the flatten functions and the expand
      functions of the connector properties),
    together with the properties of their lifecycle that the specification
    states.

    Go values are modelled as the code has them: a framework string is
    null, unknown or a known value; an [error] is an optional value of an
    error type; a remote call threads the state of the remote control plane
    and is recorded in a call log. *)

From Stdlib Require Import String Ascii List Bool ZArith Lia.
From stdpp Require Import base strings gmap list.

Set Warnings "-register-all".
Set Default Proof Using "Type".

Local Open Scope string_scope.
Local Open Scope list_scope.

(** ** Framework values (terraform-plugin-framework [types]) *)

Module Tf.

(** [types.String]: null, unknown, or a known string. *)
Inductive String' : Type :=
| StringNull
| StringUnknown
| StringValue (s : string).

(** [types.Bool]. *)
Inductive Bool' : Type :=
| BoolNull
| BoolUnknown
| BoolValue (b : bool).

(** A list-typed value, as [fwtypes.ListNestedObjectValueOf]. *)
Inductive List' (A : Type) : Type :=
| ListNull
| ListUnknown
| ListValue (elems : list A).
Arguments ListNull {A}.
Arguments ListUnknown {A}.
Arguments ListValue {A} elems.

Definition IsUnknown (v : String') : bool :=
  match v with StringUnknown => true | _ => false end.

Definition IsNull (v : String') : bool :=
  match v with StringNull => true | _ => false end.

(** [ValueString] is the empty string for a null or unknown value. *)
Definition ValueString (v : String') : string :=
  match v with StringValue s => s | _ => "" end.

(** [ValueBool] is false for a null or unknown value. *)
Definition ValueBool (v : Bool') : bool :=
  match v with BoolValue b => b | _ => false end.

(** [Elements] of a null or unknown list is empty. *)
Definition Elements {A} (v : List' A) : list A :=
  match v with ListValue l => l | _ => [] end.

(** Diagnostics: severity, summary and detail. *)
Inductive Severity : Type := SeverityError | SeverityWarning.

Record Diagnostic : Type := mkDiagnostic {
  severity : Severity;
  summary : string;
  detail : string
}.

Definition Diagnostics : Type := list Diagnostic.

Definition isError (d : Diagnostic) : bool :=
  match severity d with SeverityError => true | SeverityWarning => false end.

Definition HasError (ds : Diagnostics) : bool := existsb isError ds.

(** [Diagnostics.AddError summary detail]. *)
Definition AddError (ds : Diagnostics) (summary detail : string) : Diagnostics :=
  ds ++ [mkDiagnostic SeverityError summary detail].

(** A Go call either returns or panics (nil dereference, failed type
    assertion). *)
Inductive Result (A : Type) : Type :=
| Returned (a : A)
| Panicked.
Arguments Returned {A} a.
Arguments Panicked {A}.

End Tf.

(** ** Go errors *)

Module Errors.

(** The error values the two resources can observe. [APIError] is a
    service error with its error code; [NotFoundError] is the provider's
    [retry.NotFoundError]; [EmptyResultError] and [TooManyResultsError] come
    from [tfresource]; [ResourceNotFoundException] is the AppFlow service
    exception type. The classifiers below belong to packages [tfawserr],
    [tfresource] and [errs], which lie outside the two files embedded here;
    they are modelled by what their names and their uses in the resources
    say: a test of the error code, of the not-found class, of the error
    type. *)
Inductive error : Type :=
| APIError (code message : string)
| NotFoundError (message : string)
| EmptyResultError
| TooManyResultsError (count : nat)
| ResourceNotFoundException (message : string)
| OtherError (message : string).

(** [err.Error()]. *)
Definition Error (e : error) : string :=
  match e with
  | APIError code message => "api error " +:+ code +:+ ": " +:+ message
  | NotFoundError message => message
  | EmptyResultError => "empty result"
  | TooManyResultsError _ => "too many results"
  | ResourceNotFoundException message => "ResourceNotFoundException: " +:+ message
  | OtherError message => message
  end.

(** [tfawserr.ErrCodeEquals err code]: false on a nil error. *)
Definition ErrCodeEquals (err : option error) (code : string) : bool :=
  match err with
  | Some (APIError c _) => String.eqb c code
  | Some (ResourceNotFoundException _) => String.eqb "ResourceNotFoundException" code
  | _ => false
  end.

(** [tfresource.NotFound err]: the error is, or converts to, a
    [retry.NotFoundError], as the results of [tfresource] do. *)
Definition NotFound (err : option error) : bool :=
  match err with
  | Some (NotFoundError _) | Some EmptyResultError | Some (TooManyResultsError _) => true
  | _ => false
  end.

(** [errs.IsA[*types.ResourceNotFoundException] err]. *)
Definition IsAResourceNotFoundException (err : option error) : bool :=
  match err with
  | Some (ResourceNotFoundException _) => true
  | _ => false
  end.

End Errors.

(** ** Regular expressions (Go [regexp], the fragment the name pattern uses) *)

Module Regexp.

(** Syntax: a byte, a character class given by its ranges, concatenation,
    alternation and repetition. [Void] and [Eps] arise as derivatives. *)
Inductive regexp : Type :=
| Void
| Eps
| Lit (c : ascii)
| Class (ranges : list (ascii * ascii))
| Cat (r1 r2 : regexp)
| Alt (r1 r2 : regexp)
| Star (r : regexp).

(** [x+] is [xx*]. *)
Definition Plus (r : regexp) : regexp := Cat r (Star r).

(** A literal string is the concatenation of its bytes. *)
Fixpoint lit (w : string) : regexp :=
  match w with
  | EmptyString => Eps
  | String c w' => Cat (Lit c) (lit w')
  end.

Definition inRange (c : ascii) (range : ascii * ascii) : bool :=
  Ascii.leb (fst range) c && Ascii.leb c (snd range).

Definition inClass (ranges : list (ascii * ascii)) (c : ascii) : bool :=
  existsb (inRange c) ranges.

(** Does the expression match the empty string? *)
Fixpoint nullable (r : regexp) : bool :=
  match r with
  | Void => false
  | Eps => true
  | Lit _ => false
  | Class _ => false
  | Cat r1 r2 => nullable r1 && nullable r2
  | Alt r1 r2 => nullable r1 || nullable r2
  | Star _ => true
  end.

(** The derivative of an expression by one byte. *)
Fixpoint deriv (c : ascii) (r : regexp) : regexp :=
  match r with
  | Void => Void
  | Eps => Void
  | Lit c' => if Ascii.eqb c c' then Eps else Void
  | Class ranges => if inClass ranges c then Eps else Void
  | Cat r1 r2 =>
      if nullable r1 then Alt (Cat (deriv c r1) r2) (deriv c r2)
      else Cat (deriv c r1) r2
  | Alt r1 r2 => Alt (deriv c r1) (deriv c r2)
  | Star r1 => Cat (deriv c r1) (Star r1)
  end.

(** [re.MatchString s] for a pattern written [^r$]: without the multi-line
    flag the two anchors pin the match to the whole text, so the text
    matches exactly when it is in the language of [r]. *)
Fixpoint MatchString (r : regexp) (s : string) : bool :=
  match s with
  | EmptyString => nullable r
  | String c s' => MatchString (deriv c r) s'
  end.

(** The language of an expression. *)
Inductive matches : regexp -> string -> Prop :=
| MEps : matches Eps ""
| MLit c : matches (Lit c) (String c "")
| MClass ranges c : inClass ranges c = true -> matches (Class ranges) (String c "")
| MCat r1 r2 s1 s2 :
    matches r1 s1 -> matches r2 s2 -> matches (Cat r1 r2) (s1 +:+ s2)
| MAltL r1 r2 s : matches r1 s -> matches (Alt r1 r2) s
| MAltR r1 r2 s : matches r2 s -> matches (Alt r1 r2) s
| MStarNil r : matches (Star r) ""
| MStarApp r s1 s2 :
    matches r s1 -> matches (Star r) s2 -> matches (Star r) (s1 +:+ s2).

(** Every byte of the string satisfies the predicate. *)
Fixpoint allChars (p : ascii -> bool) (s : string) : bool :=
  match s with
  | EmptyString => true
  | String c s' => p c && allChars p s'
  end.

End Regexp.

(** ** The remote control plane and the call log *)

Module Exec.

Section World.
Context {remote call : Type}.

Context {error : Type}.

(** The state of the remote control plane and the remote calls issued
    so far, oldest first, each with the error it returned. *)
Record world : Type := mkWorld {
  plane : remote;
  log : list (call * option error)
}.

(** A computation that may call the remote control plane. *)
Definition M (A : Type) : Type := world -> A * world.

Definition ret {A} (a : A) : M A := fun w => (a, w).

Definition bind {A B} (m : M A) (k : A -> M B) : M B :=
  fun w => let '(a, w') := m w in k a w'.

(** Issue one remote call: run it on the control plane and log it with
    the error of its result. *)
Definition invoke {A} (c : call) (op : remote -> A * remote)
    (errorOf : A -> option error) : M A :=
  fun w =>
    let '(a, r') := op (plane w) in
    (a, mkWorld r' (log w ++ [(c, errorOf a)])).

Definition start (r : remote) : world := mkWorld r [].
End World.

Arguments world : clear implicits.
Arguments M : clear implicits.

End Exec.

(** The computations form a monad; stdpp's [x ← m; k] notation applies. *)
#[global] Instance exec_ret {remote call error} : MRet (Exec.M remote call error) :=
  fun _ a => Exec.ret a.
#[global] Instance exec_bind {remote call error} : MBind (Exec.M remote call error) :=
  fun _ _ k m => Exec.bind m k.

(** The error of a result that is a value or an error. *)
Definition errorOfSum {A E} (r : A + E) : option E :=
  match r with inl _ => None | inr e => Some e end.

(** ** The S3 directory bucket resource *)

Module S3.
Import Tf Errors Regexp.

(** *** Constants of the AWS SDK and of package [names] *)

Definition LocationTypeAvailabilityZone : string := "AvailabilityZone".
Definition LocationTypeLocalZone : string := "LocalZone".
Definition DataRedundancySingleAvailabilityZone : string := "SingleAvailabilityZone".
Definition DataRedundancySingleLocalZone : string := "SingleLocalZone".
Definition BucketTypeDirectory : string := "Directory".

(** Modelled from the spec: the error-code constants [errCodeBucketNotEmpty]
    and [errCodeNoSuchBucket] are declared in package s3 outside this file.
    They name the "not empty" conflict and the not-found class of section 7,
    under the error codes the S3 API uses for them. *)
Definition errCodeBucketNotEmpty : string := "BucketNotEmpty".
Definition errCodeNoSuchBucket : string := "NoSuchBucket".

(** *** The name pattern *)

Definition nameClass : regexp :=
  Regexp.Class [("0"%char, "9"%char); ("a"%char, "z"%char);
                ("."%char, "."%char); ("-"%char, "-"%char)].

Definition zoneClass : regexp :=
  Regexp.Class [("0"%char, "9"%char); ("a"%char, "z"%char); ("a"%char, "z"%char)].

(** [^(?:[0-9a-z.-]+)--(?:[0-9a-za-z]+(?:-[0-9a-za-z]+)+)--x-s3$] *)
Definition directoryBucketNameRegex : regexp :=
  Cat (Plus nameClass)
    (Cat (lit "--")
      (Cat (Cat (Plus zoneClass) (Plus (Cat (Lit "-"%char) (Plus zoneClass))))
        (lit "--x-s3"))).

(** [stringvalidator.RegexMatches re message]: a null or unknown value is
    not validated; a known value that does not match is an error. *)
Definition RegexMatches (re : regexp) (message : string) (v : String') : Diagnostics :=
  match v with
  | StringValue s =>
      if MatchString re s then []
      else [mkDiagnostic SeverityError "Invalid Attribute Value Match"
              ("Attribute bucket value " +:+ message +:+ ", got: " +:+ s)]
  | _ => []
  end.

(** The name format in words: a bucket name, then [--], then a zone id made
    of two or more dash-separated segments, then [--x-s3]. The bucket name
    is a non-empty run of digits, lower-case letters, dots and dashes; a
    segment is a non-empty run of digits and lower-case letters. *)
Definition isDigit (c : ascii) : bool :=
  Ascii.leb "0"%char c && Ascii.leb c "9"%char.

Definition isLower (c : ascii) : bool :=
  Ascii.leb "a"%char c && Ascii.leb c "z"%char.

Definition isNameChar (c : ascii) : bool :=
  isDigit c || isLower c || Ascii.eqb c "."%char || Ascii.eqb c "-"%char.

Definition isZoneChar (c : ascii) : bool := isDigit c || isLower c.

Definition segment (s : string) : Prop :=
  s <> "" /\ allChars isZoneChar s = true.

(** Each segment preceded by a dash. *)
Fixpoint dashed (segs : list string) : string :=
  match segs with
  | [] => ""
  | seg :: rest => "-" +:+ seg +:+ dashed rest
  end.

Definition directoryBucketNameFormat (s : string) : Prop :=
  exists name seg segs,
    s = name +:+ "--" +:+ (seg +:+ dashed segs) +:+ "--x-s3"
    /\ name <> "" /\ allChars isNameChar name = true
    /\ segs <> [] /\ Forall segment (seg :: segs).

(** The string ends with the given suffix. *)
Definition endsWith (suffix s : string) : Prop :=
  exists front, s = front +:+ suffix.

(** *** The resource model *)

Module LocationInfo.
(** [locationInfoModel] *)
Record locationInfoModel : Type := mk {
  Name : String';
  Type' : String'
}.
End LocationInfo.
Export LocationInfo (locationInfoModel).

(** [directoryBucketResourceModel] *)
Record directoryBucketResourceModel : Type := mkModel {
  Region : String';
  ARN : String';
  Bucket : String';
  DataRedundancy : String';
  ForceDestroy : Bool';
  Location : List' locationInfoModel;
  ID : String';
  Type' : String'
}.

(** The conversions below belong to packages [fwtypes], [fwflex] and
    [fwdiag] of the provider, outside the two files embedded here; each is
    modelled by its contract. *)

(** [fwtypes.StringEnum.ValueEnum]: the string of the value, converted to
    the enumeration type; empty for a null or unknown value. *)
Definition ValueEnum (v : String') : string := ValueString v.

(** [fwflex.StringFromFramework]: a nil pointer for a null or unknown
    value. *)
Definition StringFromFramework (v : String') : option string :=
  match v with StringValue s => Some s | _ => None end.

(** [fwflex.StringToFramework]: null for a nil pointer. *)
Definition StringToFramework (p : option string) : String' :=
  match p with Some s => StringValue s | None => StringNull end.

(** [fwflex.StringValueToFramework]: null for the empty string. *)
Definition StringValueToFramework (s : string) : String' :=
  if String.eqb s "" then StringNull else StringValue s.

(** [fwtypes.StringEnumValue] *)
Definition StringEnumValue (s : string) : String' := StringValue s.

(** [ListNestedObjectValueOf.ToPtr]: a nil pointer for no element, the
    element for one, an error diagnostic for more. *)
Definition ToPtr {A} (v : List' A) : option A * Diagnostics :=
  match Elements v with
  | [] => (None, [])
  | [x] => (Some x, [])
  | _ => (None, [mkDiagnostic SeverityError "Invalid list/set" "too many elements"])
  end.

(** [fwdiag.NewResourceNotFoundWarningDiagnostic] *)
Definition NewResourceNotFoundWarningDiagnostic (err : error) : Diagnostic :=
  mkDiagnostic SeverityWarning "AWS resource not found during refresh"
    ("Automatically removing from Terraform State instead of returning the error, which may trigger resource recreation. Original error: " +:+ Error err).

(** [defaultDirectoryBucketDataRedundancy] *)
Definition defaultDirectoryBucketDataRedundancy (locationType : string) : string :=
  if String.eqb locationType LocationTypeLocalZone
  then DataRedundancySingleLocalZone
  else DataRedundancySingleAvailabilityZone.

(** *** Remote operations *)

(** [s3.CreateBucketInput] with its [CreateBucketConfiguration]. *)
Record CreateBucketInput : Type := mkCreateBucketInput {
  input_Bucket : option string;
  input_DataRedundancy : string;
  input_Type : string;
  input_LocationName : option string;
  input_LocationType : string
}.

(** The part of [s3.HeadBucketOutput] that Read uses. *)
Record HeadBucketOutput : Type := mkHeadBucketOutput {
  BucketLocationName : option string;
  BucketLocationType : string
}.

(** The remote calls of the resource. *)
Inductive call : Type :=
| CallCreateBucket (input : CreateBucketInput)
| CallDeleteBucket (bucket : option string)
| CallFindBucket (bucket : string)
| CallEmptyDirectoryBucket (bucket : string).

(** The S3 Express client and provider metadata the resource is configured
    with. [findBucket] and [emptyDirectoryBucket] are functions of package
    s3 declared outside this file; [RegionalARN] belongs to the provider
    metadata. All are taken as given. *)
Class S3ExpressClient (remote : Type) : Type := {
  CreateBucket : CreateBucketInput -> remote -> option error * remote;
  DeleteBucket : option string -> remote -> option error * remote;
  findBucket : string -> remote -> (HeadBucketOutput + error) * remote;
  emptyDirectoryBucket : string -> remote -> (Z * option error) * remote;
  RegionalARN : string -> string -> string
}.

(** The response of an operation: its diagnostics and the state it leaves
    ([None]: the resource is not in the managed state). *)
Record Response : Type := mkResponse {
  Diagnostics : Tf.Diagnostics;
  State : option directoryBucketResourceModel
}.

Section Resource.
Context {remote : Type} `{!S3ExpressClient remote}.

Local Abbreviation M := (Exec.M remote call error).

(** [arn] returns the ARN of the specified bucket. *)
Definition arn (bucket : string) : string :=
  RegionalARN "s3express" ("bucket/" +:+ bucket).

(** [directoryBucketResource.Create]. The request's plan is given as the
    typed model; the response starts with no diagnostics and no state. *)
Definition Create (plan : directoryBucketResourceModel) : M (Result Response) :=
  let data := plan in
  let '(locationInfoData, diags) := ToPtr (Location data) in
  if HasError diags then mret (Returned (mkResponse diags None))
  else
    match locationInfoData with
    | None => mret Panicked
    | Some loc =>
        let input := {|
          input_Bucket := StringFromFramework (Bucket data);
          input_DataRedundancy := ValueEnum (DataRedundancy data);
          input_Type := ValueString (Type' data);
          input_LocationName := StringFromFramework (LocationInfo.Name loc);
          input_LocationType := ValueEnum (LocationInfo.Type' loc)
        |} in
        err ← Exec.invoke (CallCreateBucket input) (CreateBucket input) id;
        match err with
        | Some e =>
            mret (Returned (mkResponse
              (AddError diags
                 ("creating S3 Directory Bucket (" +:+ ValueString (Bucket data) +:+ ")")
                 (Error e))
              None))
        | None =>
            (* Set values for unknowns. *)
            let data := {|
              Region := Region data;
              ARN := StringValue (arn (ValueString (Bucket data)));
              Bucket := Bucket data;
              DataRedundancy := DataRedundancy data;
              ForceDestroy := ForceDestroy data;
              Location := Location data;
              ID := Bucket data;
              Type' := Type' data
            |} in
            mret (Returned (mkResponse diags (Some data)))
        end
    end.

(** [directoryBucketResource.Read]. The response state starts as the
    request's state. *)
Definition Read (state : directoryBucketResourceModel) : M Response :=
  let data := state in
  let bucket := ID data in
  res ← Exec.invoke (CallFindBucket (ValueString bucket))
          (findBucket (ValueString bucket)) errorOfSum;
  match res with
  | inr err =>
      if NotFound (Some err) then
        mret (mkResponse [NewResourceNotFoundWarningDiagnostic err] None)
      else
        mret (mkResponse
          (AddError [] ("reading S3 Directory Bucket (" +:+ ValueString (ID data) +:+ ")")
             (Error err))
          (Some state))
  | inl output =>
      (* Set attributes for import. *)
      let data := {|
        Region := Region data;
        ARN := StringValue (arn (ValueString bucket));
        Bucket := bucket;
        DataRedundancy :=
          StringEnumValue (defaultDirectoryBucketDataRedundancy (BucketLocationType output));
        ForceDestroy := ForceDestroy data;
        Location := ListValue [LocationInfo.mk
          (StringToFramework (BucketLocationName output))
          (StringEnumValue (BucketLocationType output))];
        ID := ID data;
        Type' := StringEnumValue BucketTypeDirectory
      |} in
      mret (mkResponse [] (Some data))
  end.

(** The tail of [Delete], after the conflict has been dealt with: what is
    reported for the error of the last delete call. *)
Definition reportDelete (data : directoryBucketResourceModel) (err : option error)
  : Tf.Diagnostics :=
  if ErrCodeEquals err errCodeNoSuchBucket then []
  else
    match err with
    | Some e =>
        AddError [] ("deleting S3 Directory Bucket (" +:+ ValueString (ID data) +:+ ")")
          (Error e)
    | None => []
    end.

(** [directoryBucketResource.Delete]: the diagnostics of the response. *)
Definition Delete (state : directoryBucketResourceModel) : M Tf.Diagnostics :=
  let data := state in
  let bucket := StringFromFramework (ID data) in
  err ← Exec.invoke (CallDeleteBucket bucket) (DeleteBucket bucket) id;
  if ErrCodeEquals err errCodeBucketNotEmpty then
    if ValueBool (ForceDestroy data) then
      (* Empty the bucket and try again. *)
      drained ← Exec.invoke (CallEmptyDirectoryBucket (ValueString (ID data)))
                  (emptyDirectoryBucket (ValueString (ID data))) snd;
      match snd drained with
      | Some e =>
          mret (AddError []
                  ("emptying S3 Directory Bucket (" +:+ ValueString (ID data) +:+ ")")
                  (Error e))
      | None =>
          err ← Exec.invoke (CallDeleteBucket bucket) (DeleteBucket bucket) id;
          mret (reportDelete data err)
      end
    else mret (reportDelete data err)
  else mret (reportDelete data err).

(** The framework removes the resource from the state after a Delete
    that raised no error diagnostic, and keeps the prior state
    otherwise. *)
Definition stateAfterDelete (prior : directoryBucketResourceModel)
    (diags : Tf.Diagnostics) : option directoryBucketResourceModel :=
  if HasError diags then Some prior else None.

(** The validators of the [bucket] attribute of the schema. *)
Definition bucketValidators : list (String' -> Tf.Diagnostics) :=
  [RegexMatches directoryBucketNameRegex
     "must be in the format [bucket_name]--[azid]--x-s3. Use the aws_s3_bucket resource to manage general purpose buckets"].

(** Validation of the configured bucket name against the schema. *)
Definition validateBucket (bucket : String') : Tf.Diagnostics :=
  concat (map (fun v => v bucket) bucketValidators).

(** Terraform validates the configuration against the schema before it
    plans and applies: Create is reached only when no validator raised
    an error. *)
Definition validateThenCreate (plan : directoryBucketResourceModel)
  : M (Result Response) :=
  let diags := validateBucket (Bucket plan) in
  if HasError diags then mret (Returned (mkResponse diags None))
  else Create plan.
End Resource.

(** The remote errors that the resource does not report, by design: a
    bucket that is not found on Read or on Delete, and the "not empty"
    conflict of a Delete under [force_destroy], which is answered by a drain
    and a second delete call. *)
Definition documented (forceDestroy : bool) (c : call) (e : error) : bool :=
  match c with
  | CallFindBucket _ => NotFound (Some e)
  | CallDeleteBucket _ =>
      ErrCodeEquals (Some e) errCodeNoSuchBucket
      || (forceDestroy && ErrCodeEquals (Some e) errCodeBucketNotEmpty)
  | _ => false
  end.

(** *** The plan modifier of [data_redundancy] *)

(** [planmodifier.StringRequest]: the planned value of the attribute and
    the whole plan. *)
Record StringRequest : Type := mkStringRequest {
  request_PlanValue : String';
  request_Plan : directoryBucketResourceModel
}.

(** [planmodifier.StringResponse] *)
Record StringResponse : Type := mkStringResponse {
  response_PlanValue : String';
  response_Diagnostics : Tf.Diagnostics
}.

(** [directoryBucketDataRedundancyPlanModifier.PlanModifyString] *)
Definition PlanModifyString (request : StringRequest) (response : StringResponse)
  : Result StringResponse :=
  (* Do nothing if there is a known planned value. *)
  if negb (IsUnknown (request_PlanValue request)) then Returned response
  else if HasError (response_Diagnostics response) then Returned response
  else
    let data := request_Plan request in
    let '(locationInfo, diags) := ToPtr (Location data) in
    let diagnostics := response_Diagnostics response ++ diags in
    if HasError diagnostics then
      Returned (mkStringResponse (response_PlanValue response) diagnostics)
    else
      match locationInfo with
      | None => Panicked
      | Some loc =>
          (* Set the default value for data_redundancy based on the location type. *)
          Returned (mkStringResponse
            (StringValueToFramework
               (defaultDirectoryBucketDataRedundancy (ValueEnum (LocationInfo.Type' loc))))
            diagnostics)
      end.

End S3.

(** ** The AppFlow connector profile resource *)

Module AppFlow.
Import Tf Errors.

(** *** Values of the plugin SDK ([any]) *)

(** The dynamic values stored in [schema.ResourceData] and built by the
    flatten functions: strings, booleans, numbers, string slices and string
    maps, lists and [map[string]any]. *)
Inductive any : Type :=
| VNil
| VString (s : string)
| VBool (b : bool)
| VInt (z : Z)
| VStrings (l : list string)
| VStringMap (m : gmap string string)
| VList (l : list any)
| VMap (m : gmap string any).

(** [aws.ToString] and [aws.ToInt32]: the zero value for a nil pointer. *)
Definition ToString (p : option string) : string := default "" p.
Definition ToInt32 (p : option Z) : Z := default 0%Z p.

(** A pointer to a string handed to [d.Set]. *)
Definition ofStringPtr (p : option string) : any :=
  match p with Some s => VString s | None => VNil end.

(** *** Types of the AppFlow API ([types]) *)

Module OAuthProperties.
Record t : Type := mk {
  AuthCodeUrl : option string;
  OAuthScopes : list string;
  TokenUrl : option string
}.
End OAuthProperties.

Module OAuth2Properties.
Record t : Type := mk {
  OAuth2GrantType : string;
  TokenUrl : option string;
  TokenUrlCustomProperties : gmap string string
}.
End OAuth2Properties.

Module CustomConnector.
Record t : Type := mk {
  OAuth2Properties : option OAuth2Properties.t;
  ProfileProperties : option (gmap string string)
}.
End CustomConnector.

Module Redshift.
Record t : Type := mk {
  BucketName : option string;
  BucketPrefix : option string;
  DatabaseUrl : option string;
  RoleArn : option string;
  ClusterIdentifier : option string;
  DataApiRoleArn : option string;
  DatabaseName : option string
}.
End Redshift.

Module SAPOData.
Record t : Type := mk {
  ApplicationHostUrl : option string;
  ApplicationServicePath : option string;
  ClientNumber : option string;
  PortNumber : option Z;
  LogonLanguage : option string;
  OAuthProperties : option OAuthProperties.t;
  PrivateLinkServiceName : option string
}.
End SAPOData.

Module Salesforce.
Record t : Type := mk {
  InstanceUrl : option string;
  IsSandboxEnvironment : bool;
  UsePrivateLinkForMetadataAndAuthorization : bool
}.
End Salesforce.

Module Snowflake.
Record t : Type := mk {
  AccountName : option string;
  BucketName : option string;
  BucketPrefix : option string;
  Region : option string;
  Stage : option string;
  Warehouse : option string
}.
End Snowflake.

(** The connector properties that hold an instance URL only (Datadog,
    Dynatrace, Infor Nexus, Marketo, ServiceNow, Slack, Veeva, Zendesk). *)
Module InstanceProperties.
Record t : Type := mk { InstanceUrl : option string }.
End InstanceProperties.

(** [types.ConnectorProfileProperties]: one optional member per connector.
    The connectors without properties are empty structures. *)
Record ConnectorProfileProperties : Type := mkProperties {
  Amplitude : option unit;
  CustomConnector : option CustomConnector.t;
  Datadog : option InstanceProperties.t;
  Dynatrace : option InstanceProperties.t;
  GoogleAnalytics : option unit;
  Honeycode : option unit;
  InforNexus : option InstanceProperties.t;
  Marketo : option InstanceProperties.t;
  Redshift : option Redshift.t;
  SAPOData : option SAPOData.t;
  Salesforce : option Salesforce.t;
  ServiceNow : option InstanceProperties.t;
  Singular : option unit;
  Slack : option InstanceProperties.t;
  Snowflake : option Snowflake.t;
  Trendmicro : option unit;
  Veeva : option InstanceProperties.t;
  Zendesk : option InstanceProperties.t
}.

(** [types.ConnectorProfile] *)
Record ConnectorProfile : Type := mkConnectorProfile {
  ConnectorProfileArn : option string;
  ConnectionMode : string;
  ConnectorLabel : option string;
  ConnectorProfileName : option string;
  ConnectorProfileProperties' : option ConnectorProfileProperties;
  ConnectorType : string;
  CredentialsArn : option string
}.

(** *** Flatten functions *)

(** [if p != nil { m[k] = v }] *)
Definition setWhen {A} (p : option A) (k : string) (v : A -> any)
    (m : gmap string any) : gmap string any :=
  match p with
  | Some x => <[k := v x]> m
  | None => m
  end.

(** [flattenOAuthProperties] *)
Definition flattenOAuthProperties (properties : OAuthProperties.t) : any :=
  let m : gmap string any := ∅ in
  let m := <["auth_code_url" := VString (ToString (OAuthProperties.AuthCodeUrl properties))]> m in
  let m := <["oauth_scopes" := VStrings (OAuthProperties.OAuthScopes properties)]> m in
  let m := <["token_url" := VString (ToString (OAuthProperties.TokenUrl properties))]> m in
  VList [VMap m].

(** [flattenOAuth2Properties] *)
Definition flattenOAuth2Properties (properties : OAuth2Properties.t) : any :=
  let m : gmap string any := ∅ in
  let m := <["oauth2_grant_type" := VString (OAuth2Properties.OAuth2GrantType properties)]> m in
  let m := <["token_url" := VString (ToString (OAuth2Properties.TokenUrl properties))]> m in
  let m := <["token_url_custom_properties" :=
               VStringMap (OAuth2Properties.TokenUrlCustomProperties properties)]> m in
  VList [VMap m].

(** [flattenRedshiftConnectorProfileProperties] *)
Definition flattenRedshiftConnectorProfileProperties (properties : Redshift.t) : any :=
  let m : gmap string any := ∅ in
  let m := <["bucket_name" := VString (ToString (Redshift.BucketName properties))]> m in
  let m := setWhen (Redshift.BucketPrefix properties) "bucket_prefix" VString m in
  let m := setWhen (Redshift.DatabaseUrl properties) "database_url" VString m in
  let m := <["role_arn" := VString (ToString (Redshift.RoleArn properties))]> m in
  let m := <["cluster_identifier" := VString (ToString (Redshift.ClusterIdentifier properties))]> m in
  let m := <["data_api_role_arn" := VString (ToString (Redshift.DataApiRoleArn properties))]> m in
  let m := <["database_name" := VString (ToString (Redshift.DatabaseName properties))]> m in
  VList [VMap m].

(** [flattenCustomConnectorProfileProperties] *)
Definition flattenCustomConnectorProfileProperties (properties : CustomConnector.t) : any :=
  let m : gmap string any := ∅ in
  let m := setWhen (CustomConnector.OAuth2Properties properties) "oauth2_properties"
             flattenOAuth2Properties m in
  let m := setWhen (CustomConnector.ProfileProperties properties) "profile_properties"
             VStringMap m in
  VList [VMap m].

(** [flattenSalesforceConnectorProfileProperties] *)
Definition flattenSalesforceConnectorProfileProperties (properties : Salesforce.t) : any :=
  let m : gmap string any := ∅ in
  let m := setWhen (Salesforce.InstanceUrl properties) "instance_url" VString m in
  let m := <["is_sandbox_environment" := VBool (Salesforce.IsSandboxEnvironment properties)]> m in
  let m := <["use_privatelink_for_metadata_and_authorization" :=
               VBool (Salesforce.UsePrivateLinkForMetadataAndAuthorization properties)]> m in
  VList [VMap m].

(** [flattenSAPODataConnectorProfileProperties] *)
Definition flattenSAPODataConnectorProfileProperties (properties : SAPOData.t) : any :=
  let m : gmap string any := ∅ in
  let m := <["application_host_url" := VString (ToString (SAPOData.ApplicationHostUrl properties))]> m in
  let m := <["application_service_path" :=
               VString (ToString (SAPOData.ApplicationServicePath properties))]> m in
  let m := <["client_number" := VString (ToString (SAPOData.ClientNumber properties))]> m in
  let m := <["port_number" := VInt (ToInt32 (SAPOData.PortNumber properties))]> m in
  let m := setWhen (SAPOData.LogonLanguage properties) "logon_language" VString m in
  let m := setWhen (SAPOData.OAuthProperties properties) "oauth_properties"
             flattenOAuthProperties m in
  let m := setWhen (SAPOData.PrivateLinkServiceName properties) "private_link_service_name"
             VString m in
  VList [VMap m].

(** [flattenSnowflakeConnectorProfileProperties] *)
Definition flattenSnowflakeConnectorProfileProperties (properties : Snowflake.t) : any :=
  let m : gmap string any := ∅ in
  let m := setWhen (Snowflake.AccountName properties) "account_name" VString m in
  let m := <["bucket_name" := VString (ToString (Snowflake.BucketName properties))]> m in
  let m := setWhen (Snowflake.BucketPrefix properties) "bucket_prefix" VString m in
  let m := setWhen (Snowflake.Region properties) "region" VString m in
  let m := <["stage" := VString (ToString (Snowflake.Stage properties))]> m in
  let m := <["warehouse" := VString (ToString (Snowflake.Warehouse properties))]> m in
  VList [VMap m].

(** [m["instance_url"] = aws.ToString(p.InstanceUrl)] under [if p != nil]. *)
Definition setInstanceUrl (p : option InstanceProperties.t) (m : gmap string any)
  : gmap string any :=
  setWhen p "instance_url" (fun x => VString (ToString (InstanceProperties.InstanceUrl x))) m.

(** The one map [m] that [flattenConnectorProfileProperties] allocates and
    stores, by reference, under every connector without a flatten function
    of its own. The assignments to [m["instance_url"]] all write this map,
    so every block that refers to it shows the map as the last write left
    it. *)
Definition sharedInstanceMap (cpp : ConnectorProfileProperties) : gmap string any :=
  let m : gmap string any := ∅ in
  let m := setInstanceUrl (Datadog cpp) m in
  let m := setInstanceUrl (Dynatrace cpp) m in
  let m := setInstanceUrl (InforNexus cpp) m in
  let m := setInstanceUrl (Marketo cpp) m in
  let m := setInstanceUrl (ServiceNow cpp) m in
  let m := setInstanceUrl (Slack cpp) m in
  let m := setInstanceUrl (Veeva cpp) m in
  let m := setInstanceUrl (Zendesk cpp) m in
  m.

(** [flattenConnectorProfileProperties], on a non-nil pointer. *)
Definition flattenConnectorProfileProperties (cpp : ConnectorProfileProperties) : any :=
  let m := sharedInstanceMap cpp in
  let shared {A} (_ : A) : any := VList [VMap m] in
  let result : gmap string any := ∅ in
  let result := setWhen (Amplitude cpp) "amplitude" shared result in
  let result := setWhen (CustomConnector cpp) "custom_connector"
                  flattenCustomConnectorProfileProperties result in
  let result := setWhen (Datadog cpp) "datadog" shared result in
  let result := setWhen (Dynatrace cpp) "dynatrace" shared result in
  let result := setWhen (GoogleAnalytics cpp) "google_analytics" shared result in
  let result := setWhen (Honeycode cpp) "honeycode" shared result in
  let result := setWhen (InforNexus cpp) "infor_nexus" shared result in
  let result := setWhen (Marketo cpp) "marketo" shared result in
  let result := setWhen (Redshift cpp) "redshift"
                  flattenRedshiftConnectorProfileProperties result in
  let result := setWhen (SAPOData cpp) "sapo_data"
                  flattenSAPODataConnectorProfileProperties result in
  let result := setWhen (Salesforce cpp) "salesforce"
                  flattenSalesforceConnectorProfileProperties result in
  let result := setWhen (ServiceNow cpp) "service_now" shared result in
  let result := setWhen (Singular cpp) "singular" shared result in
  let result := setWhen (Slack cpp) "slack" shared result in
  let result := setWhen (Snowflake cpp) "snowflake"
                  flattenSnowflakeConnectorProfileProperties result in
  let result := setWhen (Trendmicro cpp) "trendmicro" shared result in
  let result := setWhen (Veeva cpp) "veeva" shared result in
  let result := setWhen (Zendesk cpp) "zendesk" shared result in
  VList [VMap result].

(** [flattenConnectorProfileConfig]: dereferencing a nil [cpp] panics. *)
Definition flattenConnectorProfileConfig (cpp : option ConnectorProfileProperties)
    (cpc : list any) : Result any :=
  match cpp with
  | None => Panicked
  | Some cpp =>
      let m : gmap string any := ∅ in
      let m := <["connector_profile_properties" := flattenConnectorProfileProperties cpp]> m in
      let m := <["connector_profile_credentials" := VList cpc]> m in
      Returned (VList [VMap m])
  end.

(** *** [schema.ResourceData] *)

(** The resource data of the plugin SDK: the resource id, the new-resource
    mark that the SDK sets while it runs Create, and the attribute values.
    An empty id means the resource is not in the managed state. *)
Record ResourceData : Type := mkResourceData {
  Id : string;
  IsNewResource : bool;
  attrs : gmap string any
}.

Definition SetId (d : ResourceData) (id : string) : ResourceData :=
  mkResourceData id (IsNewResource d) (attrs d).

(** [d.Set key value]; the resource ignores the error that [Set] returns. *)
Definition Set' (d : ResourceData) (key : string) (value : any) : ResourceData :=
  mkResourceData (Id d) (IsNewResource d) (<[key := value]> (attrs d)).

(** [d.Get key] for a string attribute: the zero value when unset. *)
Definition GetString (d : ResourceData) (key : string) : string :=
  match attrs d !! key with
  | Some (VString s) => s
  | _ => ""
  end.

(** [d.Get key] for a list attribute: the empty list when unset. *)
Definition GetList (d : ResourceData) (key : string) : list any :=
  match attrs d !! key with
  | Some (VList l) => l
  | _ => []
  end.

(** One step of a dotted path: a key of a map or an index of a list. *)
Inductive step : Type :=
| Key (k : string)
| Index (i : nat).

(** The value under a path below a value. *)
Fixpoint walk (path : list step) (v : any) : option any :=
  match path with
  | [] => Some v
  | Key k :: path' =>
      match v with
      | VMap m => m !! k ≫= walk path'
      | _ => None
      end
  | Index i :: path' =>
      match v with
      | VList l => l !! i ≫= walk path'
      | _ => None
      end
  end.

(** [d.Get "key.i.key' ..."] for a list attribute below a top-level
    attribute: the empty list when the path leads nowhere. *)
Definition GetListAt (d : ResourceData) (key : string) (path : list step) : list any :=
  match attrs d !! key ≫= walk path with
  | Some (VList l) => l
  | _ => []
  end.

(** *** Remote operations *)

Section Resource.
(** The expand functions build the request payload of Create and Update
    from the configuration. The payload is passed to the remote call as
    it is and nothing below depends on what it holds; its type and its
    construction are taken as given. *)
Context {ConnectorProfileConfig : Type}.
Context (expandConnectorProfileConfig : gmap string any -> ConnectorProfileConfig).

(** [appflow.CreateConnectorProfileInput] *)
Record CreateConnectorProfileInput : Type := mkCreateInput {
  create_ConnectionMode : string;
  create_ConnectorProfileName : option string;
  create_ConnectorType : string;
  create_ConnectorLabel : option string;
  create_ConnectorProfileConfig : option ConnectorProfileConfig;
  create_KmsArn : option string
}.

(** [appflow.UpdateConnectorProfileInput] *)
Record UpdateConnectorProfileInput : Type := mkUpdateInput {
  update_ConnectionMode : string;
  update_ConnectorProfileName : option string;
  update_ConnectorProfileConfig : option ConnectorProfileConfig
}.

(** The remote calls of the resource. *)
Inductive call : Type :=
| CallCreateConnectorProfile (input : CreateConnectorProfileInput)
| CallDescribeConnectorProfiles (names : list string)
| CallUpdateConnectorProfile (input : UpdateConnectorProfileInput)
| CallDeleteConnectorProfile (name : option string).

(** The AppFlow client. [DescribeConnectorProfiles] returns its output
    (possibly nil) or an error. *)
Class AppFlowClient (remote : Type) : Type := {
  CreateConnectorProfile : CreateConnectorProfileInput -> remote -> option error * remote;
  DescribeConnectorProfiles :
    list string -> remote -> (option (list ConnectorProfile) + error) * remote;
  UpdateConnectorProfile : UpdateConnectorProfileInput -> remote -> option error * remote;
  DeleteConnectorProfile : option string -> remote -> option error * remote
}.

Context {remote : Type} `{!AppFlowClient remote}.

Local Abbreviation M := (Exec.M remote call error).

(** [sdkdiag.AppendErrorf diags "<doing> AppFlow Connector Profile (%s): %s" id err]:
    one more error diagnostic, with the formatted text as its summary. *)
Definition AppendErrorf (diags : Diagnostics) (doing id : string) (err : error)
  : Diagnostics :=
  diags ++ [mkDiagnostic SeverityError
              (doing +:+ " AppFlow Connector Profile (" +:+ id +:+ "): " +:+ Error err) ""].

(** [tfresource.AssertSingleValueResult] *)
Definition AssertSingleValueResult {A} (a : list A) : A + error :=
  match a with
  | [] => inr EmptyResultError
  | [x] => inl x
  | _ => inr (TooManyResultsError (length a))
  end.

(** [findConnectorProfileByName] *)
Definition findConnectorProfileByName (name : string) : M (ConnectorProfile + error) :=
  output ← Exec.invoke (CallDescribeConnectorProfiles [name])
             (DescribeConnectorProfiles [name]) errorOfSum;
  match output with
  | inr err => mret (inr err)
  | inl None => mret (inr EmptyResultError)
  | inl (Some []) => mret (inr EmptyResultError)
  | inl (Some details) => mret (AssertSingleValueResult details)
  end.

(** The [connector_profile_config] argument of Create and Update:
    [v.([]any)[0].(map[string]any)] when the list is not empty and its
    first element is not nil; the type assertion panics on anything but
    a map. *)
Definition configOf (d : ResourceData) : Result (option ConnectorProfileConfig) :=
  match GetList d "connector_profile_config" with
  | [] => Returned None
  | VNil :: _ => Returned None
  | VMap m :: _ => Returned (Some (expandConnectorProfileConfig m))
  | _ :: _ => Panicked
  end.

(** A string argument that is sent only when it is not empty. *)
Definition nonEmpty (v : string) : option string :=
  if String.eqb v "" then None else Some v.

(** The outcome of an operation: the resource data it leaves and its
    diagnostics. *)
Definition Outcome : Type := Result (ResourceData * Diagnostics).

(** [append(diags, f(ctx, d, meta)...)] *)
Definition appendOutcome (diags : Diagnostics) (r : Outcome) : Outcome :=
  match r with
  | Returned (d, diags') => Returned (d, diags ++ diags')
  | Panicked => Panicked
  end.

(** The seven [d.Set] calls of Read, in their order; [config] is the
    value of [flattenConnectorProfileConfig]. *)
Definition refreshed (d : ResourceData) (connectorProfile : ConnectorProfile)
    (config : any) : ResourceData :=
  let d := Set' d "arn" (ofStringPtr (ConnectorProfileArn connectorProfile)) in
  let d := Set' d "connection_mode" (VString (ConnectionMode connectorProfile)) in
  let d := Set' d "connector_label" (ofStringPtr (ConnectorLabel connectorProfile)) in
  let d := Set' d "connector_profile_config" config in
  let d := Set' d "connector_type" (VString (ConnectorType connectorProfile)) in
  let d := Set' d "credentials_arn" (ofStringPtr (CredentialsArn connectorProfile)) in
  Set' d "name" (ofStringPtr (ConnectorProfileName connectorProfile)).

(** [resourceConnectorProfileRead] *)
Definition resourceConnectorProfileRead (d : ResourceData) : M Outcome :=
  let diags : Diagnostics := [] in
  res ← findConnectorProfileByName (Id d);
  match res with
  | inr err =>
      if negb (IsNewResource d) && NotFound (Some err) then
        mret (Returned (SetId d "", diags))
      else
        mret (Returned (d, AppendErrorf diags "reading" (Id d) err))
  | inl connectorProfile =>
      (* Credentials are not returned by any API operation. *)
      let credentials :=
        GetListAt d "connector_profile_config"
          [Index 0; Key "connector_profile_credentials"] in
      match flattenConnectorProfileConfig
              (ConnectorProfileProperties' connectorProfile) credentials with
      | Panicked => mret Panicked
      | Returned config => mret (Returned (refreshed d connectorProfile config, diags))
      end
  end.

(** [resourceConnectorProfileCreate] *)
Definition resourceConnectorProfileCreate (d : ResourceData) : M Outcome :=
  let diags : Diagnostics := [] in
  let name := GetString d "name" in
  match configOf d with
  | Panicked => mret Panicked
  | Returned config =>
      let input := {|
        create_ConnectionMode := GetString d "connection_mode";
        create_ConnectorProfileName := Some name;
        create_ConnectorType := GetString d "connector_type";
        create_ConnectorLabel := nonEmpty (GetString d "connector_label");
        create_ConnectorProfileConfig := config;
        create_KmsArn := nonEmpty (GetString d "kms_arn")
      |} in
      err ← Exec.invoke (CallCreateConnectorProfile input) (CreateConnectorProfile input) id;
      match err with
      | Some e => mret (Returned (d, AppendErrorf diags "creating" name e))
      | None =>
          let d := SetId d name in
          r ← resourceConnectorProfileRead d;
          mret (appendOutcome diags r)
      end
  end.

(** [resourceConnectorProfileUpdate] *)
Definition resourceConnectorProfileUpdate (d : ResourceData) : M Outcome :=
  let diags : Diagnostics := [] in
  let name := GetString d "name" in
  match configOf d with
  | Panicked => mret Panicked
  | Returned config =>
      let input := {|
        update_ConnectionMode := GetString d "connection_mode";
        update_ConnectorProfileName := Some name;
        update_ConnectorProfileConfig := config
      |} in
      err ← Exec.invoke (CallUpdateConnectorProfile input) (UpdateConnectorProfile input) id;
      match err with
      | Some e => mret (Returned (d, AppendErrorf diags "updating" (Id d) e))
      | None =>
          r ← resourceConnectorProfileRead d;
          mret (appendOutcome diags r)
      end
  end.

(** [resourceConnectorProfileDelete] *)
Definition resourceConnectorProfileDelete (d : ResourceData) : M Diagnostics :=
  let diags : Diagnostics := [] in
  let input := Some (GetString d "name") in
  err ← Exec.invoke (CallDeleteConnectorProfile input) (DeleteConnectorProfile input) id;
  if IsAResourceNotFoundException err then mret diags
  else
    match err with
    | Some e => mret (AppendErrorf diags "deleting" (Id d) e)
    | None => mret diags
    end.

(** The remote errors that the resource does not report, by design: a
    profile that is not found on a Read outside Create, and on Delete. *)
Definition documented (d : ResourceData) (c : call) (e : error) : bool :=
  match c with
  | CallDescribeConnectorProfiles _ => negb (IsNewResource d) && NotFound (Some e)
  | CallDeleteConnectorProfile _ => IsAResourceNotFoundException (Some e)
  | _ => false
  end.

(** The SDK removes the resource from the state after a Delete that
    returned no error diagnostic. *)
Definition stateAfterDelete (d : ResourceData) (diags : Diagnostics) : ResourceData :=
  if HasError diags then d else SetId d "".
End Resource.

End AppFlow.

(** ** Reporting of remote errors *)

Module Reporting.
Import Tf Errors.




End Reporting.

(** ** Replacement on change *)

Module DiffEngine.

(** Modelled from the spec: the Diff Engine and the Update gate are not
    under src/ (Terraform's plugin framework and SDK carry them out; the
    resources only declare their schemas). Section 3 gives the data:
    an attribute schema with its required / optional / computed flags and
    its replacement-on-change flag, and a desired or prior value that is
    absent, unknown or known. *)
Record AttributeSchema : Type := mkAttribute {
  name : string;
  required : bool;
  optional : bool;
  computed : bool;
  replacementOnChange : bool
}.

(** Modelled from the spec: a desired or prior value of an attribute, as
    sections 3 and 4.1 speak of it: absent, unknown (computed-pending), or
    known. *)
Inductive Value (A : Type) : Type :=
| Absent
| Unknown
| Known (v : A).
Arguments Absent {A}.
Arguments Unknown {A}.
Arguments Known {A} v.

Section Diff.
Context {A : Type} `{!EqDecision A}.

(** Modelled from the spec: section 4.1, first rule and edge case policy.
    "If attribute marked replacement-on-change and values differ (and
    both are known): mark requires-replacement"; "unknown values never
    participate in replacement comparisons". *)
Definition marksReplacement (a : AttributeSchema) (desired prior : Value A) : bool :=
  replacementOnChange a &&
  match desired, prior with
  | Known d, Known p => negb (bool_decide (d = p))
  | _, _ => false
  end.

(** Modelled from the spec: the desired configuration and the prior state
    map attribute names to values (section 3); a missing name is an absent
    value. *)
Definition valueOf (m : gmap string (Value A)) (a : AttributeSchema) : Value A :=
  default Absent (m !! name a).

(** Modelled from the spec: "this propagates to the whole resource (any
    such attribute forces destroy+recreate of the entire object, not just
    that field)". *)
Definition requiresReplacement (schema : list AttributeSchema)
    (desired prior : gmap string (Value A)) : bool :=
  existsb (fun a => marksReplacement a (valueOf desired a) (valueOf prior a)) schema.

(** Modelled from the spec: the lifecycle operations that section 4.2 lets
    the caller execute on a Present object. *)
Inductive Step : Type := StepDelete | StepCreate | StepUpdate.

(** Modelled from the spec: section 4.2, "If ChangeSet marks
    requires-replacement, Update is rejected". *)
Definition UpdateAccepts (schema : list AttributeSchema)
    (desired prior : gmap string (Value A)) : bool :=
  negb (requiresReplacement schema desired prior).

(** Modelled from the spec: section 4.2, "and the caller must instead
    execute Delete then Create." *)
Definition apply (schema : list AttributeSchema)
    (desired prior : gmap string (Value A)) : list Step :=
  if UpdateAccepts schema desired prior then [StepUpdate]
  else [StepDelete; StepCreate].
End Diff.

(** The schema of the directory bucket resource, nested attributes under
    their path: [RequiresReplace] plan modifiers as the replacement flag. *)
Definition directoryBucketSchema : list AttributeSchema := [
  mkAttribute "arn" false false true false;
  mkAttribute "bucket" true false false true;
  mkAttribute "data_redundancy" false true true true;
  mkAttribute "force_destroy" false true true false;
  mkAttribute "id" false false true false;
  mkAttribute "type" false true true true;
  mkAttribute "location.0.name" true false false true;
  mkAttribute "location.0.type" false true true true
].

(** A plan for the directory bucket that renames the bucket and, in the
    same plan, switches [force_destroy] on. *)
Definition renamedDesired : gmap string (Value string) :=
  {[ "bucket" := Known "c--usw2-az2--x-s3"; "force_destroy" := Known "true" ]}.
Definition renamedPrior : gmap string (Value string) :=
  {[ "bucket" := Known "b--usw2-az2--x-s3"; "force_destroy" := Known "false" ]}.

(** The top-level schema of the connector profile resource: [ForceNew] as
    the replacement flag. *)
Definition connectorProfileSchema : list AttributeSchema := [
  mkAttribute "arn" false false true false;
  mkAttribute "connector_label" false true false true;
  mkAttribute "connection_mode" true false false false;
  mkAttribute "connector_profile_config" true false false false;
  mkAttribute "connector_type" true false false true;
  mkAttribute "credentials_arn" false false true false;
  mkAttribute "kms_arn" false true true true;
  mkAttribute "name" true false false true
].

End DiffEngine.

(** ** Two in-memory control planes *)

(** Small control planes on which the operations can be run. *)

Module S3Example.
Import Tf Errors S3.

(** The buckets that exist, each with the number of objects it holds. *)
Definition buckets : Type := list (string * nat).

Fixpoint objects (b : string) (r : buckets) : option nat :=
  match r with
  | [] => None
  | (b', n) :: r' => if String.eqb b' b then Some n else objects b r'
  end.

Fixpoint remove (b : string) (r : buckets) : buckets :=
  match r with
  | [] => []
  | (b', n) :: r' => if String.eqb b' b then remove b r' else (b', n) :: remove b r'
  end.

#[global] Instance client : S3ExpressClient buckets := {|
  CreateBucket input r :=
    match input_Bucket input with
    | None => (Some (APIError "InvalidBucketName" "no bucket name"), r)
    | Some b =>
        match objects b r with
        | Some _ => (Some (APIError "BucketAlreadyOwnedByYou" b), r)
        | None => (None, (b, 0) :: r)
        end
    end;
  DeleteBucket bucket r :=
    match bucket with
    | None => (Some (APIError "InvalidBucketName" "no bucket name"), r)
    | Some b =>
        match objects b r with
        | None => (Some (APIError "NoSuchBucket" b), r)
        | Some 0 => (None, remove b r)
        | Some (S _) => (Some (APIError "BucketNotEmpty" b), r)
        end
    end;
  findBucket b r :=
    match objects b r with
    | None => (inr (NotFoundError "couldn't find resource"), r)
    | Some _ => (inl (mkHeadBucketOutput (Some "usw2-az2") LocationTypeAvailabilityZone), r)
    end;
  emptyDirectoryBucket b r :=
    match objects b r with
    | None => ((0%Z, Some (APIError "NoSuchBucket" b)), r)
    | Some n => ((Z.of_nat n, None), (b, 0) :: remove b r)
    end;
  RegionalARN service resource :=
    "arn:aws:" +:+ service +:+ ":us-west-2:123456789012:" +:+ resource
|}.

(** A scripted control plane: the answers that the delete calls still to
    come will give, in their order, and the answer of the drain. It serves
    the cases the bucket store cannot show, such as a bucket that another
    actor removes while it is drained. *)
Definition script : Type := list (option error) * option error.

#[global] Instance scripted : S3ExpressClient script := {|
  CreateBucket _ r := (None, r);
  DeleteBucket _ r :=
    match fst r with
    | [] => (None, r)
    | answer :: answers => (answer, (answers, snd r))
    end;
  findBucket _ r := (inr (NotFoundError "couldn't find resource"), r);
  emptyDirectoryBucket _ r := ((0%Z, snd r), r);
  RegionalARN service resource :=
    "arn:aws:" +:+ service +:+ ":us-west-2:123456789012:" +:+ resource
|}.

Definition notEmpty : error := APIError "BucketNotEmpty" "The bucket is not empty".
Definition noSuchBucket : error := APIError "NoSuchBucket" "The bucket does not exist".
Definition accessDenied : error := APIError "AccessDenied" "Access Denied".

(** The bucket is removed by another actor while it is drained. *)
Definition removedMeanwhile : Exec.world script call error :=
  Exec.start ([Some notEmpty; Some noSuchBucket], None).

(** The drain is refused. *)
Definition drainRefused : Exec.world script call error :=
  Exec.start ([Some notEmpty], Some accessDenied).

Definition bucketName : string := "b--usw2-az2--x-s3".

(** A bucket in the state, with or without [force_destroy]. *)
Definition bucket (forceDestroy : bool) : directoryBucketResourceModel := {|
  Region := StringValue "us-west-2";
  ARN := StringValue (RegionalARN "s3express" ("bucket/" +:+ bucketName));
  Bucket := StringValue bucketName;
  DataRedundancy := StringValue DataRedundancySingleAvailabilityZone;
  ForceDestroy := BoolValue forceDestroy;
  Location := ListValue [LocationInfo.mk (StringValue "usw2-az2")
                           (StringValue LocationTypeAvailabilityZone)];
  ID := StringValue bucketName;
  Type' := StringValue BucketTypeDirectory
|}.

(** A plan for a new bucket of the given name. *)
Definition plan (name : string) : directoryBucketResourceModel := {|
  Region := StringValue "us-west-2";
  ARN := StringUnknown;
  Bucket := StringValue name;
  DataRedundancy := StringValue DataRedundancySingleAvailabilityZone;
  ForceDestroy := BoolValue false;
  Location := ListValue [LocationInfo.mk (StringValue "usw2-az2")
                           (StringValue LocationTypeAvailabilityZone)];
  ID := StringUnknown;
  Type' := StringValue BucketTypeDirectory
|}.

(** A plan in which [data_redundancy] is not configured and the location
    type is not yet known. *)
Definition pendingPlan : directoryBucketResourceModel := {|
  Region := StringValue "us-west-2";
  ARN := StringUnknown;
  Bucket := StringValue bucketName;
  DataRedundancy := StringUnknown;
  ForceDestroy := BoolValue false;
  Location := ListValue [LocationInfo.mk (StringValue "usw2-az2") StringUnknown];
  ID := StringUnknown;
  Type' := StringValue BucketTypeDirectory
|}.

(** The request and the response the plan modifier is run with on that
    plan: the planned value of [data_redundancy] is unknown, and the
    response starts with the planned value and no diagnostics. *)
Definition pendingRequest : StringRequest := mkStringRequest StringUnknown pendingPlan.
Definition initialResponse : StringResponse := mkStringResponse StringUnknown [].

(** Control planes: no bucket, the bucket holding three objects, the
    bucket empty. *)
Definition noBucket : Exec.world buckets call error := Exec.start [].
Definition fullBucket : Exec.world buckets call error := Exec.start [(bucketName, 3)].
Definition emptyBucket : Exec.world buckets call error := Exec.start [(bucketName, 0)].

End S3Example.

Module AppFlowExample.
Import Tf Errors AppFlow.

(** The request payload is the configuration map itself. *)
Definition expand (m : gmap string any) : gmap string any := m.

Definition noProperties : ConnectorProfileProperties :=
  mkProperties None None None None None None None None None
               None None None None None None None None None.

(** The profiles that exist; a created profile is a Slack profile. *)
#[global] Instance client
  : AppFlowClient (ConnectorProfileConfig := gmap string any) (list ConnectorProfile) := {|
  CreateConnectorProfile input r :=
    (None,
     r ++ [mkConnectorProfile (Some "arn:aws:appflow:us-west-2:123456789012:connectorprofile/p")
             (create_ConnectionMode input) (create_ConnectorLabel input)
             (create_ConnectorProfileName input)
             (Some (mkProperties None None None None None None None None None None None None
                      None (Some (InstanceProperties.mk (Some "https://example.slack.com")))
                      None None None None))
             (create_ConnectorType input)
             (Some "arn:aws:secretsmanager:us-west-2:123456789012:secret:p")]);
  DescribeConnectorProfiles names r :=
    (inl (Some (filter (fun p => bool_decide (ToString (ConnectorProfileName p) ∈ names)) r)), r);
  UpdateConnectorProfile input r :=
    if bool_decide (Exists (fun p => ConnectorProfileName p = update_ConnectorProfileName input) r)
    then (None, r)
    else (Some (ResourceNotFoundException "no such profile"), r);
  DeleteConnectorProfile name r :=
    if bool_decide (Exists (fun p => ConnectorProfileName p = name) r)
    then (None, filter (fun p => bool_decide (ConnectorProfileName p ≠ name)) r)
    else (Some (ResourceNotFoundException "no such profile"), r)
|}.

Definition credentials : list any :=
  [VMap {[ "slack" := VList [VMap {[ "client_id" := VString "id";
                                     "client_secret" := VString "secret" ]}] ]}].

(** The resource data of a profile named ["p"]. *)
Definition profileData : ResourceData := {|
  Id := "p";
  IsNewResource := false;
  attrs := {[ "name" := VString "p";
              "connection_mode" := VString "Public";
              "connector_type" := VString "Slack";
              "connector_profile_config" :=
                VList [VMap {[ "connector_profile_credentials" := VList credentials;
                               "connector_profile_properties" := VList [VMap ∅] ]}] ]}
|}.

(** The profile ["p"] as the remote holds it. *)
Definition slackProperties : ConnectorProfileProperties :=
  mkProperties None None None None None None None None None None None None
    None (Some (InstanceProperties.mk (Some "https://example.slack.com")))
    None None None None.

Definition slackProfile : ConnectorProfile :=
  mkConnectorProfile (Some "arn:aws:appflow:us-west-2:123456789012:connectorprofile/p")
    "Public" None (Some "p") (Some slackProperties) "Slack"
    (Some "arn:aws:secretsmanager:us-west-2:123456789012:secret:p").

Definition oneProfile : Exec.world (list ConnectorProfile) (call (ConnectorProfileConfig := gmap string any)) error :=
  Exec.start [slackProfile].

Definition noProfile : Exec.world (list ConnectorProfile) (call (ConnectorProfileConfig := gmap string any)) error :=
  Exec.start [].

End AppFlowExample.

(** ** Expand functions of the connector profile properties *)

Module AppFlowExpand.
Import Tf AppFlow.

(** A panic ends the evaluation of what follows it. *)
#[global] Instance result_ret : MRet Result := fun _ a => Returned a.
#[global] Instance result_bind : MBind Result :=
  fun _ _ k r => match r with Returned a => k a | Panicked => Panicked end.

(** [m[key].(string)]: the assertion panics unless the key holds a string;
    a missing key holds nil. *)
Definition assertString (m : gmap string any) (key : string) : Result string :=
  match m !! key with
  | Some (VString s) => Returned s
  | _ => Panicked
  end.

(** [if v, ok := m[key].(string); ok && v != "" { p = aws.String(v) }] *)
Definition nonEmptyString (m : gmap string any) (key : string) : option string :=
  match m !! key with
  | Some (VString s) => if String.eqb s "" then None else Some s
  | _ => None
  end.

(** [if v, ok := m[key].(bool); ok { b = v }], over the zero value. *)
Definition boolOrFalse (m : gmap string any) (key : string) : bool :=
  match m !! key with
  | Some (VBool b) => b
  | _ => false
  end.

(** [expandDatadogConnectorProfileProperties] *)
Definition expandDatadogConnectorProfileProperties (m : gmap string any)
  : Result InstanceProperties.t :=
  url ← assertString m "instance_url";
  mret (InstanceProperties.mk (Some url)).

(** [expandDynatraceConnectorProfileProperties] *)
Definition expandDynatraceConnectorProfileProperties (m : gmap string any)
  : Result InstanceProperties.t :=
  url ← assertString m "instance_url";
  mret (InstanceProperties.mk (Some url)).

(** [expandInforNexusConnectorProfileProperties] *)
Definition expandInforNexusConnectorProfileProperties (m : gmap string any)
  : Result InstanceProperties.t :=
  url ← assertString m "instance_url";
  mret (InstanceProperties.mk (Some url)).

(** [expandMarketoConnectorProfileProperties] *)
Definition expandMarketoConnectorProfileProperties (m : gmap string any)
  : Result InstanceProperties.t :=
  url ← assertString m "instance_url";
  mret (InstanceProperties.mk (Some url)).

(** [expandServiceNowConnectorProfileProperties] *)
Definition expandServiceNowConnectorProfileProperties (m : gmap string any)
  : Result InstanceProperties.t :=
  url ← assertString m "instance_url";
  mret (InstanceProperties.mk (Some url)).

(** [expandSlackConnectorProfileProperties] *)
Definition expandSlackConnectorProfileProperties (m : gmap string any)
  : Result InstanceProperties.t :=
  url ← assertString m "instance_url";
  mret (InstanceProperties.mk (Some url)).

(** [expandVeevaConnectorProfileProperties] *)
Definition expandVeevaConnectorProfileProperties (m : gmap string any)
  : Result InstanceProperties.t :=
  url ← assertString m "instance_url";
  mret (InstanceProperties.mk (Some url)).

(** [expandZendeskConnectorProfileProperties] *)
Definition expandZendeskConnectorProfileProperties (m : gmap string any)
  : Result InstanceProperties.t :=
  url ← assertString m "instance_url";
  mret (InstanceProperties.mk (Some url)).

(** [expandRedshiftConnectorProfileProperties] *)
Definition expandRedshiftConnectorProfileProperties (m : gmap string any)
  : Result Redshift.t :=
  bucketName ← assertString m "bucket_name";
  clusterIdentifier ← assertString m "cluster_identifier";
  roleArn ← assertString m "role_arn";
  dataApiRoleArn ← assertString m "data_api_role_arn";
  databaseName ← assertString m "database_name";
  mret {|
    Redshift.BucketName := Some bucketName;
    Redshift.BucketPrefix := nonEmptyString m "bucket_prefix";
    Redshift.DatabaseUrl := nonEmptyString m "database_url";
    Redshift.RoleArn := Some roleArn;
    Redshift.ClusterIdentifier := Some clusterIdentifier;
    Redshift.DataApiRoleArn := Some dataApiRoleArn;
    Redshift.DatabaseName := Some databaseName
  |}.

(** [expandSalesforceConnectorProfileProperties] *)
Definition expandSalesforceConnectorProfileProperties (m : gmap string any)
  : Salesforce.t := {|
  Salesforce.InstanceUrl := nonEmptyString m "instance_url";
  Salesforce.IsSandboxEnvironment := boolOrFalse m "is_sandbox_environment";
  Salesforce.UsePrivateLinkForMetadataAndAuthorization :=
    boolOrFalse m "use_privatelink_for_metadata_and_authorization"
|}.

(** [types.SnowflakeConnectorProfileProperties] with every member that
    [expandSnowflakeConnectorProfileProperties] writes. [Snowflake.t] holds
    the members that the flatten function reads; [read] gives them. *)
Module SnowflakeRequest.
Record t : Type := mk {
  AccountName : option string;
  BucketName : option string;
  BucketPrefix : option string;
  PrivateLinkServiceName : option string;
  Region : option string;
  Stage : option string;
  Warehouse : option string
}.

Definition read (p : t) : Snowflake.t := {|
  Snowflake.AccountName := AccountName p;
  Snowflake.BucketName := BucketName p;
  Snowflake.BucketPrefix := BucketPrefix p;
  Snowflake.Region := Region p;
  Snowflake.Stage := Stage p;
  Snowflake.Warehouse := Warehouse p
|}.
End SnowflakeRequest.

(** [expandSnowflakeConnectorProfileProperties] *)
Definition expandSnowflakeConnectorProfileProperties (m : gmap string any)
  : Result SnowflakeRequest.t :=
  bucketName ← assertString m "bucket_name";
  stage ← assertString m "stage";
  warehouse ← assertString m "warehouse";
  mret {|
    SnowflakeRequest.AccountName := nonEmptyString m "account_name";
    SnowflakeRequest.BucketName := Some bucketName;
    SnowflakeRequest.BucketPrefix := nonEmptyString m "bucket_prefix";
    SnowflakeRequest.PrivateLinkServiceName := nonEmptyString m "private_link_service_name";
    SnowflakeRequest.Region := nonEmptyString m "region";
    SnowflakeRequest.Stage := Some stage;
    SnowflakeRequest.Warehouse := Some warehouse
  |}.

(** The map of a flattened block, [[]any{m}]. *)
Definition blockOf (v : any) : gmap string any :=
  match v with
  | VList [VMap m] => m
  | _ => ∅
  end.

(** The key holds a string. *)
Definition holdsString (m : gmap string any) (key : string) : Prop :=
  exists s, m !! key = Some (VString s).

(** The key is missing or holds a string that is not empty. *)
Definition missingOrNonEmpty (m : gmap string any) (key : string) : Prop :=
  m !! key = None \/ exists s, s <> "" /\ m !! key = Some (VString s).

(** A member that the expand functions never yield as a pointer to the
    empty string. *)
Definition dropEmpty (p : option string) : option string :=
  match p with
  | Some s => if String.eqb s "" then None else Some s
  | None => None
  end.

(** The keys of the Redshift and Snowflake blocks that the expand functions
    assert to be strings, and the ones they read when present. *)
Definition redshiftRequired : list string :=
  ["bucket_name"; "cluster_identifier"; "role_arn"; "data_api_role_arn"; "database_name"].
Definition redshiftOptional : list string := ["bucket_prefix"; "database_url"].
Definition snowflakeRequired : list string := ["bucket_name"; "stage"; "warehouse"].
Definition snowflakeOptional : list string :=
  ["account_name"; "bucket_prefix"; "private_link_service_name"; "region"].

End AppFlowExpand.

(** ** The blocks of the flattened connector profile properties *)

Module AppFlowBlocks.
Import Tf AppFlow AppFlowExpand.

(** The key of a connector when its member is set. *)
Definition keyWhen {A} (p : option A) (key : string) : list string :=
  match p with
  | Some _ => [key]
  | None => []
  end.

(** The keys of the connectors whose member is set. *)
Definition presentKeys (cpp : ConnectorProfileProperties) : list string :=
  keyWhen (Amplitude cpp) "amplitude" ++ keyWhen (CustomConnector cpp) "custom_connector"
  ++ keyWhen (Datadog cpp) "datadog" ++ keyWhen (Dynatrace cpp) "dynatrace"
  ++ keyWhen (GoogleAnalytics cpp) "google_analytics" ++ keyWhen (Honeycode cpp) "honeycode"
  ++ keyWhen (InforNexus cpp) "infor_nexus" ++ keyWhen (Marketo cpp) "marketo"
  ++ keyWhen (Redshift cpp) "redshift" ++ keyWhen (SAPOData cpp) "sapo_data"
  ++ keyWhen (Salesforce cpp) "salesforce" ++ keyWhen (ServiceNow cpp) "service_now"
  ++ keyWhen (Singular cpp) "singular" ++ keyWhen (Slack cpp) "slack"
  ++ keyWhen (Snowflake cpp) "snowflake" ++ keyWhen (Trendmicro cpp) "trendmicro"
  ++ keyWhen (Veeva cpp) "veeva" ++ keyWhen (Zendesk cpp) "zendesk".

(** The connectors that have no flatten function of their own. *)
Definition sharedKeys : list string :=
  ["amplitude"; "datadog"; "dynatrace"; "google_analytics"; "honeycode"; "infor_nexus";
   "marketo"; "service_now"; "singular"; "slack"; "trendmicro"; "veeva"; "zendesk"].

(** The members whose instance URL [flattenConnectorProfileProperties]
    writes, in the order of the writes. *)
Definition instanceUrlWrites (cpp : ConnectorProfileProperties)
  : list (option InstanceProperties.t) :=
  [Datadog cpp; Dynatrace cpp; InforNexus cpp; Marketo cpp;
   ServiceNow cpp; Slack cpp; Veeva cpp; Zendesk cpp].

(** The instance URL that the last of the writes leaves, if any member is
    set. *)
Definition lastWrite (writes : list (option InstanceProperties.t)) (written : option string)
  : option string :=
  fold_left
    (fun written p =>
       match p with
       | Some x => Some (ToString (InstanceProperties.InstanceUrl x))
       | None => written
       end)
    writes written.

(** The map that holds the written instance URL. *)
Definition instanceMap (written : option string) : gmap string any :=
  match written with
  | Some url => {[ "instance_url" := VString url ]}
  | None => ∅
  end.

(** The connectors that hold an instance URL: the key of the block, the
    expand function and the member of the properties. *)
Definition instanceConnectors
  : list (string * (gmap string any -> Result InstanceProperties.t)
          * (ConnectorProfileProperties -> option InstanceProperties.t)) :=
  [("datadog", expandDatadogConnectorProfileProperties, Datadog);
   ("dynatrace", expandDynatraceConnectorProfileProperties, Dynatrace);
   ("infor_nexus", expandInforNexusConnectorProfileProperties, InforNexus);
   ("marketo", expandMarketoConnectorProfileProperties, Marketo);
   ("service_now", expandServiceNowConnectorProfileProperties, ServiceNow);
   ("slack", expandSlackConnectorProfileProperties, Slack);
   ("veeva", expandVeevaConnectorProfileProperties, Veeva);
   ("zendesk", expandZendeskConnectorProfileProperties, Zendesk)].

End AppFlowBlocks.

(** ** Sample data of the connector profile properties *)

Module AppFlowSamples.
Import Tf AppFlow AppFlowExpand.

(** The resource data of the profile ["p"] while it is created. *)
Definition newProfileData : ResourceData := {|
  Id := "";
  IsNewResource := true;
  attrs := attrs AppFlowExample.profileData
|}.

(** Properties with Amplitude, Datadog and Zendesk set. *)
Definition mixedProperties : ConnectorProfileProperties :=
  mkProperties (Some tt) None
    (Some (InstanceProperties.mk (Some "https://datadog.example"))) None None None None None
    None None None None None None None None None
    (Some (InstanceProperties.mk (Some "https://zendesk.example"))).

Definition slackBlock : gmap string any :=
  {[ "instance_url" := VString "https://example.slack.com" ]}.

Definition redshiftBlock : gmap string any :=
  {[ "bucket_name" := VString "b";
     "bucket_prefix" := VString "logs";
     "cluster_identifier" := VString "c";
     "role_arn" := VString "arn:aws:iam::123456789012:role/r";
     "data_api_role_arn" := VString "arn:aws:iam::123456789012:role/d";
     "database_name" := VString "db" ]}.

Definition snowflakeBlock : gmap string any :=
  {[ "bucket_name" := VString "b";
     "private_link_service_name" := VString "com.amazonaws.vpce.us-west-2.vpce-svc-1";
     "stage" := VString "s";
     "warehouse" := VString "w" ]}.

End AppFlowSamples.

(** * Properties *)

(** ** The regular-expression matcher decides the language *)

Module RegexpFacts.
Import Regexp.

Lemma append_nil_l (s : string) : "" +:+ s = s.
Proof. reflexivity. Qed.

Lemma append_cons c (s1 s2 : string) : String c s1 +:+ s2 = String c (s1 +:+ s2).
Proof. reflexivity. Qed.

(** Push concatenations inwards. *)
Ltac simpl_append := repeat (rewrite append_cons || rewrite append_nil_l).

Lemma append_nil_r (s : string) : s +:+ "" = s.
Proof. induction s as [|c s IH]; simpl_append; [reflexivity | now rewrite IH]. Qed.

Lemma append_assoc (s1 s2 s3 : string) : (s1 +:+ s2) +:+ s3 = s1 +:+ (s2 +:+ s3).
Proof. induction s1 as [|c s1 IH]; simpl_append; [reflexivity | now rewrite IH]. Qed.

Lemma append_eq_nil (s1 s2 : string) : s1 +:+ s2 = "" -> s1 = "" /\ s2 = "".
Proof. destruct s1; simpl_append; [auto | discriminate]. Qed.

(** A non-empty concatenation takes its first byte from the first part, or
    the first part is empty. *)
Lemma append_eq_cons (s1 s2 : string) c s :
  s1 +:+ s2 = String c s ->
  (s1 = "" /\ s2 = String c s) \/ (exists s1', s1 = String c s1' /\ s = s1' +:+ s2).
Proof.
  destruct s1 as [|c1 s1]; simpl_append; intros H.
  - left; auto.
  - right. injection H as -> <-. eauto.
Qed.

Lemma nullable_matches (r : regexp) : nullable r = true <-> matches r "".
Proof.
  split.
  - induction r; simpl; intros H; try discriminate.
    + constructor.
    + apply andb_true_iff in H as [H1 H2].
      change "" with ("" +:+ ""). constructor; auto.
    + apply orb_true_iff in H as [H|H]; [apply MAltL | apply MAltR]; auto.
    + constructor.
  - intros H. remember "" as s eqn:Hs.
    induction H; simpl; try discriminate; try reflexivity.
    + apply append_eq_nil in Hs as [-> ->].
      rewrite IHmatches1, IHmatches2; auto.
    + rewrite IHmatches; auto.
    + rewrite IHmatches; auto using orb_true_r.
Qed.

(** A non-empty match of [r*] starts with a non-empty match of [r]. *)
Lemma star_cons_inv (r : regexp) c s :
  matches (Star r) (String c s) ->
  exists s1 s2, s = s1 +:+ s2 /\ matches r (String c s1) /\ matches (Star r) s2.
Proof.
  intros H. remember (Star r) as r' eqn:Hr. remember (String c s) as t eqn:Ht.
  revert s Ht. induction H; intros s' Ht; try discriminate.
  injection Hr as ->.
  apply append_eq_cons in Ht as [[-> ->] | (s1' & -> & ->)].
  - apply IHmatches2; reflexivity.
  - exists s1', s2. auto.
Qed.

Lemma cat_inv (r1 r2 : regexp) s :
  matches (Cat r1 r2) s ->
  exists s1 s2, s = s1 +:+ s2 /\ matches r1 s1 /\ matches r2 s2.
Proof. intros H. inversion H; subst. eauto. Qed.

Lemma alt_inv (r1 r2 : regexp) s :
  matches (Alt r1 r2) s -> matches r1 s \/ matches r2 s.
Proof. intros H. inversion H; subst; auto. Qed.

Lemma cat_cons (r1 r2 : regexp) c s1 s2 :
  matches r1 (String c s1) -> matches r2 s2 -> matches (Cat r1 r2) (String c (s1 +:+ s2)).
Proof. intros H1 H2. rewrite <- append_cons. now constructor. Qed.

Lemma deriv_matches (r : regexp) c s : matches (deriv c r) s <-> matches r (String c s).
Proof.
  revert s. induction r as [| |c'|ranges|r1 IH1 r2 IH2|r1 IH1 r2 IH2|r IH]; intros s; simpl.
  - split; intros H; inversion H.
  - split; intros H; inversion H.
  - destruct (Ascii.eqb_spec c c') as [->|Hne]; split; intros H; inversion H; subst.
    + constructor.
    + constructor.
    + congruence.
  - destruct (inClass ranges c) eqn:Hc; split; intros H; inversion H; subst.
    + constructor; assumption.
    + constructor.
    + congruence.
  - destruct (nullable r1) eqn:Hn.
    + split; intros H.
      * apply alt_inv in H as [H|H].
        -- apply cat_inv in H as (s1 & s2 & -> & H1 & H2).
           apply cat_cons; auto. now apply IH1.
        -- apply IH2 in H. rewrite <- (append_nil_l (String c s)).
           constructor; auto. now apply nullable_matches.
      * apply cat_inv in H as (s1 & s2 & Heq & H1 & H2). symmetry in Heq.
        apply append_eq_cons in Heq as [[-> ->] | (s1' & -> & ->)].
        -- apply MAltR. now apply IH2.
        -- apply MAltL. constructor; auto. now apply IH1.
    + split; intros H.
      * apply cat_inv in H as (s1 & s2 & -> & H1 & H2).
        apply cat_cons; auto. now apply IH1.
      * apply cat_inv in H as (s1 & s2 & Heq & H1 & H2). symmetry in Heq.
        apply append_eq_cons in Heq as [[-> ->] | (s1' & -> & ->)].
        -- apply nullable_matches in H1. congruence.
        -- constructor; auto. now apply IH1.
  - split; intros H; apply alt_inv in H as [H|H];
      solve [apply MAltL; now apply IH1 | apply MAltR; now apply IH2].
  - split; intros H.
    + apply cat_inv in H as (s1 & s2 & -> & H1 & H2).
      rewrite <- append_cons. constructor; auto. now apply IH.
    + apply star_cons_inv in H as (s1 & s2 & -> & H1 & H2).
      constructor; auto. now apply IH.
Qed.

(** The matcher accepts exactly the strings of the language. *)
Lemma MatchString_matches (r : regexp) (s : string) :
  MatchString r s = true <-> matches r s.
Proof.
  revert r. induction s as [|c s IH]; intros r; simpl.
  - apply nullable_matches.
  - rewrite IH. apply deriv_matches.
Qed.

(** *** Shapes of the languages the name pattern is built from *)

Lemma lit_matches (w s : string) : matches (lit w) s <-> s = w.
Proof.
  revert s. induction w as [|c w IH]; intros s; simpl.
  - split; intros H; [now inversion H | subst; constructor].
  - split; intros H.
    + apply cat_inv in H as (s1 & s2 & -> & H1 & H2).
      inversion H1; subst. apply IH in H2 as ->. reflexivity.
    + subst. rewrite <- (append_nil_l w), <- append_cons.
      constructor; [constructor | now apply IH].
Qed.

Lemma class_matches ranges (s : string) :
  matches (Class ranges) s <-> exists c, s = String c "" /\ inClass ranges c = true.
Proof.
  split.
  - intros H. inversion H; subst. eauto.
  - intros (c & -> & Hc). now constructor.
Qed.

(** [r*] matches the concatenations of matches of [r]. *)
Lemma star_parts (r : regexp) (s : string) :
  matches (Star r) s <->
  exists parts, Forall (matches r) parts /\ s = fold_right String.append "" parts.
Proof.
  split.
  - intros H. remember (Star r) as r' eqn:Hr.
    induction H; try discriminate.
    + exists []. split; [constructor | reflexivity].
    + injection Hr as ->.
      destruct (IHmatches2 eq_refl) as (parts & Hall & ->).
      exists (s1 :: parts). split; [constructor; assumption | reflexivity].
  - intros (parts & Hall & ->).
    induction Hall as [|part parts Hpart _ IH]; simpl; now constructor.
Qed.

Lemma class_star_matches ranges (s : string) :
  matches (Star (Class ranges)) s <-> allChars (inClass ranges) s = true.
Proof.
  split.
  - intros H. apply star_parts in H as (parts & Hall & ->).
    induction Hall as [|part parts Hpart _ IH]; simpl; [reflexivity|].
    apply class_matches in Hpart as (c & -> & Hc).
    simpl_append. simpl. now rewrite Hc, IH.
  - revert ranges. induction s as [|c s IH]; intros ranges H; simpl in H.
    + constructor.
    + apply andb_true_iff in H as [Hc Hs].
      rewrite <- (append_nil_l s), <- append_cons.
      constructor; [now constructor | now apply IH].
Qed.

Lemma class_plus_matches ranges (s : string) :
  matches (Plus (Class ranges)) s <-> s <> "" /\ allChars (inClass ranges) s = true.
Proof.
  unfold Plus. split.
  - intros H. apply cat_inv in H as (s1 & s2 & -> & H1 & H2).
    apply class_matches in H1 as (c & -> & Hc).
    apply class_star_matches in H2. simpl_append. simpl.
    rewrite Hc, H2. split; [discriminate | reflexivity].
  - intros [Hne H]. destruct s as [|c s]; [congruence|]. simpl in H.
    apply andb_true_iff in H as [Hc Hs].
    rewrite <- (append_nil_l s), <- append_cons.
    constructor; [now constructor | now apply class_star_matches].
Qed.

Lemma allChars_ext (p q : ascii -> bool) (s : string) :
  (forall c, p c = q c) -> allChars p s = allChars q s.
Proof. intros Hpq. induction s as [|c s IH]; simpl; [reflexivity | now rewrite Hpq, IH]. Qed.

Lemma allChars_append (p : ascii -> bool) (s1 s2 : string) :
  allChars p (s1 +:+ s2) = allChars p s1 && allChars p s2.
Proof.
  induction s1 as [|c s1 IH]; simpl_append; simpl; [reflexivity|].
  now rewrite IH, andb_assoc.
Qed.

End RegexpFacts.

(** ** The directory bucket: Read, Delete and Create *)

(** Unfold one monadic step. *)
Ltac exec_unfold :=
  unfold mbind, mret, exec_bind, exec_ret, Exec.bind, Exec.ret, Exec.invoke.

(** Reduce the projections and pattern matches a rewritten call leaves. *)
Ltac exec_step := cbn [Exec.plane Exec.log fst snd id].

Module S3Facts.
Import Tf Errors S3 Reporting.

Section Facts.
Context {remote : Type} `{!S3ExpressClient remote}.

Local Abbreviation world := (Exec.world remote call error).

(** Read on a bucket that the remote reports as not found: the resource
    leaves the state and only a warning is reported. *)
Lemma bucket_Read_not_found (state : directoryBucketResourceModel) (w : world) err r' :
  findBucket (ValueString (ID state)) (Exec.plane w) = (inr err, r') ->
  NotFound (Some err) = true ->
  exists resp w',
    Read state w = (resp, w')
    /\ State resp = None
    /\ HasError (Diagnostics resp) = false.
Proof.
  intros Hfind Hnf. unfold Read. exec_unfold. rewrite Hfind. rewrite Hnf.
  eexists _, _. split; [reflexivity|]. split; reflexivity.
Qed.

Lemma ErrCodeEquals_distinct err :
  ErrCodeEquals err errCodeBucketNotEmpty = true ->
  ErrCodeEquals err errCodeNoSuchBucket = false.
Proof.
  destruct err as [[code msg| | | |msg|msg]|]; simpl; try discriminate.
  intros H. apply String.eqb_eq in H. subst. reflexivity.
Qed.

Lemma ErrCodeEquals_is_error err code :
  ErrCodeEquals err code = true -> exists e, err = Some e.
Proof. destruct err; [eauto | discriminate]. Qed.

(** A conflict that is not a not-found error is reported. *)
Lemma reportDelete_conflict (data : directoryBucketResourceModel) err :
  ErrCodeEquals err errCodeBucketNotEmpty = true ->
  HasError (reportDelete data err) = true.
Proof.
  intros H. unfold reportDelete. rewrite (ErrCodeEquals_distinct _ H).
  destruct (ErrCodeEquals_is_error _ _ H) as [e ->]. reflexivity.
Qed.

Lemma reportDelete_not_found (data : directoryBucketResourceModel) err :
  ErrCodeEquals err errCodeNoSuchBucket = true -> reportDelete data err = [].
Proof. intros H. unfold reportDelete. now rewrite H. Qed.

Lemma reportDelete_nil (data : directoryBucketResourceModel) :
  reportDelete data None = [].
Proof. reflexivity. Qed.

(** Delete when the first delete call returns anything but the "not
    empty" conflict: one call, reported by [reportDelete]. *)
Lemma Delete_plain (state : directoryBucketResourceModel) (w : world) err r1 :
  DeleteBucket (StringFromFramework (ID state)) (Exec.plane w) = (err, r1) ->
  ErrCodeEquals err errCodeBucketNotEmpty = false ->
  Delete state w =
    (reportDelete state err,
     Exec.mkWorld r1 (Exec.log w ++ [(CallDeleteBucket (StringFromFramework (ID state)), err)])).
Proof.
  intros Hdel Hcode. unfold Delete. exec_unfold. rewrite Hdel. exec_step.
  now rewrite Hcode.
Qed.

(** Delete on the conflict without [force_destroy]: one call, no drain. *)
Lemma Delete_conflict_no_force (state : directoryBucketResourceModel) (w : world) err r1 :
  DeleteBucket (StringFromFramework (ID state)) (Exec.plane w) = (err, r1) ->
  ErrCodeEquals err errCodeBucketNotEmpty = true ->
  ValueBool (ForceDestroy state) = false ->
  Delete state w =
    (reportDelete state err,
     Exec.mkWorld r1 (Exec.log w ++ [(CallDeleteBucket (StringFromFramework (ID state)), err)])).
Proof.
  intros Hdel Hcode Hforce. unfold Delete. exec_unfold. rewrite Hdel. exec_step.
  now rewrite Hcode, Hforce.
Qed.

(** Delete on the conflict with [force_destroy] and a drain that fails:
    the drain error is reported and the delete call is not repeated. *)
Lemma Delete_conflict_drain_fails (state : directoryBucketResourceModel) (w : world)
    err r1 n e r2 :
  DeleteBucket (StringFromFramework (ID state)) (Exec.plane w) = (err, r1) ->
  ErrCodeEquals err errCodeBucketNotEmpty = true ->
  ValueBool (ForceDestroy state) = true ->
  emptyDirectoryBucket (ValueString (ID state)) r1 = ((n, Some e), r2) ->
  Delete state w =
    (AddError [] ("emptying S3 Directory Bucket (" +:+ ValueString (ID state) +:+ ")") (Error e),
     Exec.mkWorld r2
       (Exec.log w ++ [(CallDeleteBucket (StringFromFramework (ID state)), err);
                       (CallEmptyDirectoryBucket (ValueString (ID state)), Some e)])).
Proof.
  intros Hdel Hcode Hforce Hdrain. unfold Delete. exec_unfold. rewrite Hdel. exec_step.
  rewrite Hcode, Hforce. exec_step. rewrite Hdrain. exec_step. now rewrite <- app_assoc.
Qed.

(** Delete on the conflict with [force_destroy] and a drain that
    succeeds: the delete call is repeated once. *)
Lemma Delete_conflict_drained (state : directoryBucketResourceModel) (w : world)
    err r1 n r2 err2 r3 :
  DeleteBucket (StringFromFramework (ID state)) (Exec.plane w) = (err, r1) ->
  ErrCodeEquals err errCodeBucketNotEmpty = true ->
  ValueBool (ForceDestroy state) = true ->
  emptyDirectoryBucket (ValueString (ID state)) r1 = ((n, None), r2) ->
  DeleteBucket (StringFromFramework (ID state)) r2 = (err2, r3) ->
  Delete state w =
    (reportDelete state err2,
     Exec.mkWorld r3
       (Exec.log w ++ [(CallDeleteBucket (StringFromFramework (ID state)), err);
                       (CallEmptyDirectoryBucket (ValueString (ID state)), None);
                       (CallDeleteBucket (StringFromFramework (ID state)), err2)])).
Proof.
  intros Hdel Hcode Hforce Hdrain Hdel2. unfold Delete. exec_unfold. rewrite Hdel. exec_step.
  rewrite Hcode, Hforce. exec_step. rewrite Hdrain. exec_step. rewrite Hdel2. exec_step.
  now rewrite <- !app_assoc.
Qed.
End Facts.

End S3Facts.

(** ** The directory bucket name pattern *)

Module NameFacts.
Import Tf Regexp RegexpFacts S3.

Lemma nameClass_chars (c : ascii) :
  inClass [("0"%char, "9"%char); ("a"%char, "z"%char);
           ("."%char, "."%char); ("-"%char, "-"%char)] c = isNameChar c.
Proof. destruct c as [[] [] [] [] [] [] [] []]; reflexivity. Qed.

Lemma zoneClass_chars (c : ascii) :
  inClass [("0"%char, "9"%char); ("a"%char, "z"%char); ("a"%char, "z"%char)] c
  = isZoneChar c.
Proof. destruct c as [[] [] [] [] [] [] [] []]; reflexivity. Qed.

Lemma name_matches (s : string) :
  matches (Plus nameClass) s <-> s <> "" /\ allChars isNameChar s = true.
Proof.
  unfold nameClass. rewrite class_plus_matches.
  now rewrite (allChars_ext _ _ s nameClass_chars).
Qed.

Lemma segment_matches (s : string) : matches (Plus zoneClass) s <-> segment s.
Proof.
  unfold zoneClass, segment. rewrite class_plus_matches.
  now rewrite (allChars_ext _ _ s zoneClass_chars).
Qed.

(** One dash and one segment. *)
Lemma dash_segment_matches (s : string) :
  matches (Cat (Lit "-"%char) (Plus zoneClass)) s <->
  exists seg, s = "-" +:+ seg /\ segment seg.
Proof.
  split.
  - intros H. apply cat_inv in H as (s1 & s2 & -> & H1 & H2).
    inversion H1; subst. exists s2. split; [reflexivity | now apply segment_matches].
  - intros (seg & -> & Hseg).
    constructor; [constructor | now apply segment_matches].
Qed.

(** Any number of dash-separated segments. *)
Lemma dashed_star_matches (s : string) :
  matches (Star (Cat (Lit "-"%char) (Plus zoneClass))) s <->
  exists segs, Forall segment segs /\ s = dashed segs.
Proof.
  rewrite star_parts. split.
  - intros (parts & Hall & ->).
    induction Hall as [|part parts Hpart _ (segs & Hsegs & IH)].
    + exists []. split; [constructor | reflexivity].
    + apply dash_segment_matches in Hpart as (seg & -> & Hseg).
      exists (seg :: segs). split; [constructor; assumption|].
      simpl. rewrite IH. now rewrite append_assoc.
  - intros (segs & Hall & ->).
    induction Hall as [|seg segs Hseg _ (parts & Hparts & IH)].
    + exists []. split; [constructor | reflexivity].
    + exists (("-" +:+ seg) :: parts). split.
      * constructor; [|assumption]. apply dash_segment_matches. eauto.
      * simpl. rewrite IH. now rewrite append_assoc.
Qed.

(** One or more dash-separated segments. *)
Lemma dashed_plus_matches (s : string) :
  matches (Plus (Cat (Lit "-"%char) (Plus zoneClass))) s <->
  exists segs, segs <> [] /\ Forall segment segs /\ s = dashed segs.
Proof.
  unfold Plus at 1. split.
  - intros H. apply cat_inv in H as (s1 & s2 & -> & H1 & H2).
    apply dash_segment_matches in H1 as (seg & -> & Hseg).
    apply dashed_star_matches in H2 as (segs & Hsegs & ->).
    exists (seg :: segs). split; [discriminate|]. split; [constructor; assumption|].
    simpl. now rewrite append_assoc.
  - intros (segs & Hne & Hall & ->).
    destruct Hall as [|seg segs Hseg Hsegs]; [congruence|].
    simpl. rewrite <- append_assoc. constructor.
    + apply dash_segment_matches. eauto.
    + apply dashed_star_matches. eauto.
Qed.

(** The strings of the pattern are the names of the format. *)
Lemma regex_format (s : string) :
  matches directoryBucketNameRegex s <-> directoryBucketNameFormat s.
Proof.
  unfold directoryBucketNameRegex, directoryBucketNameFormat. split.
  - intros H.
    apply cat_inv in H as (name & s1 & -> & Hname & H).
    apply cat_inv in H as (sep & s2 & -> & Hsep & H).
    apply cat_inv in H as (zone & suffix & -> & Hzone & Hsuffix).
    apply cat_inv in Hzone as (seg & rest & -> & Hseg & Hrest).
    apply lit_matches in Hsep as ->. apply lit_matches in Hsuffix as ->.
    apply name_matches in Hname as [Hne Hchars].
    apply segment_matches in Hseg.
    apply dashed_plus_matches in Hrest as (segs & Hsegs & Hall & ->).
    exists name, seg, segs. repeat split; try assumption. now constructor.
  - intros (name & seg & segs & -> & Hne & Hchars & Hsegs & Hall).
    inversion Hall as [|? ? Hseg Hrest]; subst.
    constructor; [apply name_matches; auto|].
    constructor; [now apply lit_matches|].
    constructor; [|now apply lit_matches].
    constructor; [now apply segment_matches|].
    apply dashed_plus_matches. eauto.
Qed.

(** The validator passes a known name exactly when the name matches. *)
Lemma validateBucket_passes (s : string) :
  HasError (validateBucket (StringValue s)) = false
  <-> MatchString directoryBucketNameRegex s = true.
Proof.
  unfold validateBucket, bucketValidators, RegexMatches. simpl.
  destruct (MatchString directoryBucketNameRegex s); simpl; split; congruence.
Qed.

End NameFacts.

(** ** The connector profile: Read and Delete *)

Module AppFlowFacts.
Import Tf Errors AppFlow Reporting.

Section Facts.
Context {ConnectorProfileConfig : Type}.
Context (expand : gmap string any -> ConnectorProfileConfig).
Context {remote : Type} `{!AppFlowClient (ConnectorProfileConfig := ConnectorProfileConfig) remote}.

Local Abbreviation call := (call (ConnectorProfileConfig := ConnectorProfileConfig)).
Local Abbreviation world := (Exec.world remote call error).

(** The lookup issues one describe call and changes nothing else. *)
Lemma find_log (name : string) (w : world) res w' :
  findConnectorProfileByName name w = (res, w') ->
  exists described,
    DescribeConnectorProfiles [name] (Exec.plane w) = (described, Exec.plane w')
    /\ Exec.log w' = Exec.log w ++ [(CallDescribeConnectorProfiles [name], errorOfSum described)]
    /\ (forall e, errorOfSum described = Some e -> res = inr e).
Proof.
  unfold findConnectorProfileByName. exec_unfold.
  destruct (DescribeConnectorProfiles [name] (Exec.plane w)) as [described r'] eqn:Hd.
  exec_step. intros H. exists described.
  destruct described as [[[|p ps]|]|err]; injection H as <- <-; exec_step;
    (split; [reflexivity | split; [reflexivity | intros e He; simpl in He; congruence]]).
Qed.

(** An empty answer of the remote is a not-found error. *)
Lemma find_empty (name : string) (w : world) r' :
  DescribeConnectorProfiles [name] (Exec.plane w) = (inl (Some []), r') ->
  exists w', findConnectorProfileByName name w = (inr EmptyResultError, w').
Proof.
  intros Hd. unfold findConnectorProfileByName. exec_unfold. rewrite Hd. exec_step.
  eexists. reflexivity.
Qed.

(** Read of a profile that is not new and that the remote reports as not
    found: the id is cleared and nothing is reported. *)
Lemma profile_Read_not_found (d : ResourceData) (w : world) err w' :
  IsNewResource d = false ->
  findConnectorProfileByName (Id d) w = (inr err, w') ->
  NotFound (Some err) = true ->
  resourceConnectorProfileRead d w = (Returned (SetId d "", []), w').
Proof.
  intros Hnew Hfind Hnf. unfold resourceConnectorProfileRead.
  exec_unfold. fold (findConnectorProfileByName (Id d) w). rewrite Hfind.
  rewrite Hnew, Hnf. reflexivity.
Qed.

(** Read of a profile the remote reports as not found while it is being
    created, or a lookup that fails otherwise: an error is reported. *)
Lemma Read_error (d : ResourceData) (w : world) err w' :
  findConnectorProfileByName (Id d) w = (inr err, w') ->
  negb (IsNewResource d) && NotFound (Some err) = false ->
  resourceConnectorProfileRead d w =
    (Returned (d, AppendErrorf [] "reading" (Id d) err), w').
Proof.
  intros Hfind Hnf. unfold resourceConnectorProfileRead.
  exec_unfold. fold (findConnectorProfileByName (Id d) w). rewrite Hfind.
  rewrite Hnf. reflexivity.
Qed.

Lemma Read_found (d : ResourceData) (w : world) connectorProfile w' :
  findConnectorProfileByName (Id d) w = (inl connectorProfile, w') ->
  resourceConnectorProfileRead d w =
    (match flattenConnectorProfileConfig (ConnectorProfileProperties' connectorProfile)
             (GetListAt d "connector_profile_config"
                [Index 0; Key "connector_profile_credentials"]) with
     | Returned config => Returned (refreshed d connectorProfile config, [])
     | Panicked => Panicked
     end, w').
Proof.
  intros Hfind. unfold resourceConnectorProfileRead.
  exec_unfold. fold (findConnectorProfileByName (Id d) w). rewrite Hfind.
  destruct (flattenConnectorProfileConfig _ _); reflexivity.
Qed.



End Facts.

End AppFlowFacts.

(** ** Reporting of remote errors by the directory bucket *)

Module S3Reporting.
Import Tf Errors S3 Reporting.



Section Facts.
Context {remote : Type} `{!S3ExpressClient remote}.

Local Abbreviation world := (Exec.world remote call error).




End Facts.

End S3Reporting.

(** ** Reporting of remote errors by the connector profile *)

Module AppFlowReporting.
Import Tf Errors AppFlow Reporting.



Section Facts.
Context {ConnectorProfileConfig : Type}.
Context (expand : gmap string any -> ConnectorProfileConfig).
Context {remote : Type} `{!AppFlowClient (ConnectorProfileConfig := ConnectorProfileConfig) remote}.

Local Abbreviation call := (call (ConnectorProfileConfig := ConnectorProfileConfig)).
Local Abbreviation world := (Exec.world remote call error).





End Facts.

End AppFlowReporting.

(** ** Lifecycle properties of the two resources *)

Module Lifecycle.
Import Tf Errors.

(** C3. Read on a managed (Present) object that the remote control plane
    reports as not found removes the object from the managed state and
    completes without an error: the directory bucket's Read removes the
    resource from the state and reports a warning only; the connector
    profile's Read, on a resource that is not being created, clears the id
    and reports nothing, be the not-found answer an error of the not-found
    class or an empty list of profiles. *)
Theorem read_not_found_removes_from_state :
  (forall (remote : Type) (client : S3.S3ExpressClient remote)
          (state : S3.directoryBucketResourceModel)
          (w : Exec.world remote S3.call error) err r',
      S3.findBucket (ValueString (S3.ID state)) (Exec.plane w) = (inr err, r') ->
      NotFound (Some err) = true ->
      exists resp w',
        S3.Read state w = (resp, w')
        /\ S3.State resp = None
        /\ HasError (S3.Diagnostics resp) = false)
  /\
  (forall (Config remote : Type) (client : AppFlow.AppFlowClient (ConnectorProfileConfig := Config) remote)
          (d : AppFlow.ResourceData)
          (w : Exec.world remote AppFlow.call error) err w',
      AppFlow.IsNewResource d = false ->
      AppFlow.findConnectorProfileByName (AppFlow.Id d) w = (inr err, w') ->
      NotFound (Some err) = true ->
      exists d' diags,
        AppFlow.resourceConnectorProfileRead d w = (Returned (d', diags), w')
        /\ AppFlow.Id d' = ""
        /\ HasError diags = false)
  /\
  (forall (Config remote : Type) (client : AppFlow.AppFlowClient (ConnectorProfileConfig := Config) remote)
          (d : AppFlow.ResourceData)
          (w : Exec.world remote AppFlow.call error) r',
      AppFlow.IsNewResource d = false ->
      AppFlow.DescribeConnectorProfiles [AppFlow.Id d] (Exec.plane w) = (inl (Some []), r') ->
      exists d' diags w',
        AppFlow.resourceConnectorProfileRead d w = (Returned (d', diags), w')
        /\ AppFlow.Id d' = ""
        /\ HasError diags = false).
Proof.
  split; [|split].
  - intros remote client state w err r' Hfind Hnf.
    exact (S3Facts.bucket_Read_not_found state w err r' Hfind Hnf).
  - intros Config remote client d w err w' Hnew Hfind Hnf.
    exists (AppFlow.SetId d ""), [].
    split; [|split; reflexivity].
    exact (AppFlowFacts.profile_Read_not_found d w err w' Hnew Hfind Hnf).
  - intros Config remote client d w r' Hnew Hdescribe.
    destruct (AppFlowFacts.find_empty (AppFlow.Id d) w r' Hdescribe) as [w' Hfind].
    exists (AppFlow.SetId d ""), [], w'.
    split; [|split; reflexivity].
    exact (AppFlowFacts.profile_Read_not_found d w _ w' Hnew Hfind eq_refl).
Qed.

Lemma read_not_found_removes_from_state_witness :
  (exists resp w',
     S3.Read (S3Example.bucket false) S3Example.noBucket = (resp, w')
     /\ S3.State resp = None
     /\ HasError (S3.Diagnostics resp) = false)
  /\
  (exists d' diags w',
     AppFlow.resourceConnectorProfileRead AppFlowExample.profileData AppFlowExample.noProfile
       = (Returned (d', diags), w')
     /\ AppFlow.Id d' = ""
     /\ HasError diags = false)
  /\
  (AppFlow.DescribeConnectorProfiles ["p"] (Exec.plane AppFlowExample.noProfile)
     = (inl (Some []), [])
   /\ exists d' diags w',
        AppFlow.resourceConnectorProfileRead
          AppFlowExample.profileData AppFlowExample.noProfile
        = (Returned (d', diags), w')
        /\ AppFlow.Id d' = ""
        /\ HasError diags = false).
Proof.
  split; [|split].
  - eapply (proj1 read_not_found_removes_from_state); reflexivity.
  - edestruct (proj1 (proj2 read_not_found_removes_from_state) _ _ _
                 AppFlowExample.profileData AppFlowExample.noProfile)
      as (d' & diags & H);
      [reflexivity | vm_compute; reflexivity | reflexivity |].
    exists d', diags. eexists. exact H.
  - split; [reflexivity|].
    exact (proj2 (proj2 read_not_found_removes_from_state) _ _ _
             AppFlowExample.profileData AppFlowExample.noProfile [] eq_refl eq_refl).
Defined.

(** C4. A Delete whose remote delete call reports not-found is reported as
    success and leaves the object absent: for the directory bucket whether
    the not-found answer comes from the first delete call or from the
    repeated call after a drain, and for the connector profile. *)
Theorem delete_not_found_is_success :
  (forall (remote : Type) (client : S3.S3ExpressClient remote)
          (state : S3.directoryBucketResourceModel)
          (w : Exec.world remote S3.call error) err r1,
      S3.DeleteBucket (S3.StringFromFramework (S3.ID state)) (Exec.plane w) = (err, r1) ->
      ErrCodeEquals err S3.errCodeNoSuchBucket = true ->
      exists w',
        S3.Delete state w = ([], w')
        /\ S3.stateAfterDelete state [] = None)
  /\
  (forall (remote : Type) (client : S3.S3ExpressClient remote)
          (state : S3.directoryBucketResourceModel)
          (w : Exec.world remote S3.call error) err r1 n r2 err2 r3,
      S3.DeleteBucket (S3.StringFromFramework (S3.ID state)) (Exec.plane w) = (err, r1) ->
      ErrCodeEquals err S3.errCodeBucketNotEmpty = true ->
      ValueBool (S3.ForceDestroy state) = true ->
      S3.emptyDirectoryBucket (ValueString (S3.ID state)) r1 = ((n, None), r2) ->
      S3.DeleteBucket (S3.StringFromFramework (S3.ID state)) r2 = (err2, r3) ->
      ErrCodeEquals err2 S3.errCodeNoSuchBucket = true ->
      exists w',
        S3.Delete state w = ([], w')
        /\ S3.stateAfterDelete state [] = None)
  /\
  (forall (Config remote : Type)
          (client : AppFlow.AppFlowClient (ConnectorProfileConfig := Config) remote)
          (d : AppFlow.ResourceData)
          (w : Exec.world remote AppFlow.call error) err r1,
      AppFlow.DeleteConnectorProfile (Some (AppFlow.GetString d "name")) (Exec.plane w)
        = (err, r1) ->
      IsAResourceNotFoundException err = true ->
      exists w',
        AppFlow.resourceConnectorProfileDelete d w = ([], w')
        /\ AppFlow.Id (AppFlow.stateAfterDelete d []) = "").
Proof.
  split; [|split].
  - intros remote client state w err r1 Hdel Hcode.
    assert (Hne : ErrCodeEquals err S3.errCodeBucketNotEmpty = false).
    { destruct (ErrCodeEquals err S3.errCodeBucketNotEmpty) eqn:E; [|reflexivity].
      apply S3Facts.ErrCodeEquals_distinct in E. congruence. }
    rewrite (S3Facts.Delete_plain state w err r1 Hdel Hne).
    rewrite (S3Facts.reportDelete_not_found state err Hcode).
    eexists. split; reflexivity.
  - intros remote client state w err r1 n r2 err2 r3 Hdel Hcode Hforce Hdrain Hdel2 Hcode2.
    rewrite (S3Facts.Delete_conflict_drained state w err r1 n r2 err2 r3
               Hdel Hcode Hforce Hdrain Hdel2).
    rewrite (S3Facts.reportDelete_not_found state err2 Hcode2).
    eexists. split; reflexivity.
  - intros Config remote client d w err r1 Hdel Hnf.
    unfold AppFlow.resourceConnectorProfileDelete. exec_unfold.
    rewrite Hdel. exec_step. rewrite Hnf.
    eexists. split; reflexivity.
Qed.

Lemma delete_not_found_is_success_witness :
  (exists w', S3.Delete (S3Example.bucket false) S3Example.noBucket = ([], w')
              /\ S3.stateAfterDelete (S3Example.bucket false) [] = None)
  /\
  (exists w', S3.Delete (S3Example.bucket true) S3Example.removedMeanwhile = ([], w')
              /\ S3.stateAfterDelete (S3Example.bucket true) [] = None)
  /\
  (exists w', AppFlow.resourceConnectorProfileDelete
                AppFlowExample.profileData AppFlowExample.noProfile = ([], w')
              /\ AppFlow.Id (AppFlow.stateAfterDelete AppFlowExample.profileData []) = "").
Proof.
  split; [|split].
  - eapply (proj1 delete_not_found_is_success); [vm_compute; reflexivity | reflexivity].
  - eapply (proj1 (proj2 delete_not_found_is_success) _ _
              (S3Example.bucket true) S3Example.removedMeanwhile);
      [vm_compute; reflexivity | reflexivity | reflexivity
      | vm_compute; reflexivity | vm_compute; reflexivity | reflexivity].
  - eapply (proj2 (proj2 delete_not_found_is_success));
      [vm_compute; reflexivity | reflexivity].
Defined.

(** C2. A Delete of a directory bucket whose delete call reports the "not
    empty" conflict: without [force_destroy] the error is reported, the
    object stays in the state, and the delete call is the only remote call
    (no drain); with [force_destroy] the drain is called and, the bucket
    drained, the delete call is repeated once and only once, and when that
    call succeeds nothing is reported and the object leaves the state. (A
    drain that fails is reported, and the object stays in the state.) *)
Theorem delete_conflict_force_destroy :
  forall (remote : Type) (client : S3.S3ExpressClient remote)
         (state : S3.directoryBucketResourceModel)
         (w : Exec.world remote S3.call error) err r1,
    let bucket := S3.StringFromFramework (S3.ID state) in
    let id := ValueString (S3.ID state) in
    S3.DeleteBucket bucket (Exec.plane w) = (err, r1) ->
    ErrCodeEquals err S3.errCodeBucketNotEmpty = true ->
    (ValueBool (S3.ForceDestroy state) = false ->
       exists diags,
         S3.Delete state w =
           (diags, Exec.mkWorld r1 (Exec.log w ++ [(S3.CallDeleteBucket bucket, err)]))
         /\ HasError diags = true
         /\ S3.stateAfterDelete state diags = Some state)
    /\
    (ValueBool (S3.ForceDestroy state) = true ->
       forall n drainErr r2,
         S3.emptyDirectoryBucket id r1 = ((n, drainErr), r2) ->
         match drainErr with
         | None =>
             forall err2 r3,
               S3.DeleteBucket bucket r2 = (err2, r3) ->
               exists diags,
                 S3.Delete state w =
                   (diags,
                    Exec.mkWorld r3
                      (Exec.log w ++ [(S3.CallDeleteBucket bucket, err);
                                      (S3.CallEmptyDirectoryBucket id, None);
                                      (S3.CallDeleteBucket bucket, err2)]))
                 /\ (err2 = None ->
                       HasError diags = false /\ S3.stateAfterDelete state diags = None)
         | Some e =>
             exists diags,
               S3.Delete state w =
                 (diags,
                  Exec.mkWorld r2
                    (Exec.log w ++ [(S3.CallDeleteBucket bucket, err);
                                    (S3.CallEmptyDirectoryBucket id, Some e)]))
               /\ HasError diags = true
               /\ S3.stateAfterDelete state diags = Some state
         end).
Proof.
  intros remote client state w err r1 bucket id Hdel Hcode. split.
  - intros Hforce. exists (S3.reportDelete state err).
    split; [exact (S3Facts.Delete_conflict_no_force state w err r1 Hdel Hcode Hforce)|].
    pose proof (S3Facts.reportDelete_conflict state err Hcode) as Herr.
    split; [exact Herr|]. unfold S3.stateAfterDelete. now rewrite Herr.
  - intros Hforce n [e|] r2 Hdrain.
    + eexists. split.
      * exact (S3Facts.Delete_conflict_drain_fails state w err r1 n e r2
                 Hdel Hcode Hforce Hdrain).
      * split; reflexivity.
    + intros err2 r3 Hdel2. exists (S3.reportDelete state err2). split.
      * exact (S3Facts.Delete_conflict_drained state w err r1 n r2 err2 r3
                 Hdel Hcode Hforce Hdrain Hdel2).
      * intros ->. split; reflexivity.
Qed.

Lemma delete_conflict_force_destroy_witness :
  (exists diags w',
     S3.Delete (S3Example.bucket false) S3Example.fullBucket = (diags, w')
     /\ length (Exec.log w') = 1
     /\ HasError diags = true
     /\ S3.stateAfterDelete (S3Example.bucket false) diags = Some (S3Example.bucket false))
  /\
  (exists diags w',
     S3.Delete (S3Example.bucket true) S3Example.fullBucket = (diags, w')
     /\ length (Exec.log w') = 3
     /\ HasError diags = false
     /\ S3.stateAfterDelete (S3Example.bucket true) diags = None)
  /\
  (exists diags w',
     S3.Delete (S3Example.bucket true) S3Example.drainRefused = (diags, w')
     /\ length (Exec.log w') = 2
     /\ HasError diags = true
     /\ S3.stateAfterDelete (S3Example.bucket true) diags = Some (S3Example.bucket true)).
Proof.
  split; [|split].
  - edestruct (delete_conflict_force_destroy _ _ (S3Example.bucket false) S3Example.fullBucket)
      as [Hno _]; [vm_compute; reflexivity | reflexivity |].
    destruct (Hno eq_refl) as (diags & Hrun & Herr & Hstate).
    exists diags. eexists. split; [exact Hrun|]. split; [reflexivity|]. split; assumption.
  - edestruct (delete_conflict_force_destroy _ _ (S3Example.bucket true) S3Example.fullBucket)
      as [_ Hforce]; [vm_compute; reflexivity | reflexivity |].
    pose proof (Hforce eq_refl 3%Z None [(S3Example.bucketName, 0)]) as Hdrained.
    edestruct Hdrained as (diags & Hrun & Hok);
      [vm_compute; reflexivity | vm_compute; reflexivity |].
    destruct (Hok eq_refl) as [Herr Hstate].
    exists diags. eexists. split; [exact Hrun|]. split; [reflexivity|]. split; assumption.
  - edestruct (delete_conflict_force_destroy _ _ (S3Example.bucket true) S3Example.drainRefused)
      as [_ Hforce]; [vm_compute; reflexivity | reflexivity |].
    pose proof (Hforce eq_refl 0%Z (Some S3Example.accessDenied)
                  ([], Some S3Example.accessDenied) eq_refl)
      as (diags & Hrun & Herr & Hstate).
    exists diags. eexists. split; [exact Hrun|]. split; [reflexivity|]. split; assumption.
Defined.

(** C10. After a successful Create or Read of the directory bucket the
    [id] and [bucket] attributes of the stored state hold the same string:
    Create stores the planned bucket name under both, Read stores the prior
    id under both. *)
Theorem id_equals_bucket_after_create_and_read :
  (forall (remote : Type) (client : S3.S3ExpressClient remote)
          (plan : S3.directoryBucketResourceModel)
          (w : Exec.world remote S3.call error) resp w' st,
      S3.Create plan w = (Returned resp, w') ->
      S3.State resp = Some st ->
      S3.ID st = S3.Bucket st /\ S3.Bucket st = S3.Bucket plan)
  /\
  (forall (remote : Type) (client : S3.S3ExpressClient remote)
          (state : S3.directoryBucketResourceModel)
          (w : Exec.world remote S3.call error) resp w' st,
      S3.Read state w = (resp, w') ->
      HasError (S3.Diagnostics resp) = false ->
      S3.State resp = Some st ->
      S3.ID st = S3.Bucket st /\ S3.ID st = S3.ID state).
Proof.
  split.
  - intros remote client plan w resp w' st Hrun Hst.
    unfold S3.Create in Hrun.
    destruct (S3.ToPtr (S3.Location plan)) as [[loc|] diags].
    + destruct (HasError diags).
      * injection Hrun as <- _. discriminate.
      * revert Hrun. exec_unfold.
        match goal with
        | |- context [S3.CreateBucket ?i ?r] => destruct (S3.CreateBucket i r) as [[e|] r1]
        end; exec_step; intros Hrun; injection Hrun as <- _; simpl in Hst.
        -- discriminate.
        -- injection Hst as <-. split; reflexivity.
    + destruct (HasError diags); [|discriminate].
      injection Hrun as <- _. discriminate.
  - intros remote client state w resp w' st Hrun Hok Hst.
    revert Hrun. unfold S3.Read. exec_unfold.
    destruct (S3.findBucket (ValueString (S3.ID state)) (Exec.plane w)) as [[output|err] r1].
    + exec_step. intros Hrun. injection Hrun as <- _. simpl in Hst.
      injection Hst as <-. split; reflexivity.
    + exec_step. destruct (NotFound (Some err)); intros Hrun; injection Hrun as <- _.
      * discriminate.
      * discriminate.
Qed.

Lemma id_equals_bucket_after_create_and_read_witness :
  (exists resp w' st,
     S3.Create (S3Example.plan S3Example.bucketName) S3Example.noBucket = (Returned resp, w')
     /\ S3.State resp = Some st
     /\ S3.ID st = S3.Bucket st /\ S3.Bucket st = StringValue S3Example.bucketName)
  /\
  (exists resp w' st,
     S3.Read (S3Example.bucket false) S3Example.emptyBucket = (resp, w')
     /\ S3.State resp = Some st
     /\ S3.ID st = S3.Bucket st /\ S3.ID st = StringValue S3Example.bucketName).
Proof.
  split.
  - eexists _, _, _. split; [vm_compute; reflexivity|]. split; [reflexivity|].
    refine (proj1 id_equals_bucket_after_create_and_read _ _
              (S3Example.plan S3Example.bucketName) S3Example.noBucket _ _ _ _ _);
      [vm_compute; reflexivity | reflexivity].
  - eexists _, _, _. split; [vm_compute; reflexivity|]. split; [reflexivity|].
    refine (proj2 id_equals_bucket_after_create_and_read _ _
              (S3Example.bucket false) S3Example.emptyBucket _ _ _ _ _ _);
      [vm_compute; reflexivity | reflexivity | reflexivity].
Defined.

(** The default is one of the two redundancy modes, whatever the location
    type. *)
Lemma default_is_concrete (locationType : string) :
  S3.defaultDirectoryBucketDataRedundancy locationType = S3.DataRedundancySingleLocalZone
  \/ S3.defaultDirectoryBucketDataRedundancy locationType
       = S3.DataRedundancySingleAvailabilityZone.
Proof.
  unfold S3.defaultDirectoryBucketDataRedundancy.
  destruct (String.eqb locationType S3.LocationTypeLocalZone); auto.
Qed.

Lemma default_to_framework (locationType : string) :
  S3.StringValueToFramework (S3.defaultDirectoryBucketDataRedundancy locationType)
  = StringValue (S3.defaultDirectoryBucketDataRedundancy locationType).
Proof. destruct (default_is_concrete locationType) as [-> | ->]; reflexivity. Qed.

(** C1 as stated does not hold: on a plan whose [data_redundancy] has no
    planned value and whose location type is not yet known, the plan
    modifier plans the known value [SingleAvailabilityZone]. *)
Lemma data_redundancy_default_counterexample :
  IsUnknown (S3.request_PlanValue S3Example.pendingRequest) = true
  /\ (exists loc,
        Elements (S3.Location (S3.request_Plan S3Example.pendingRequest)) = [loc]
        /\ IsUnknown (S3.LocationInfo.Type' loc) = true)
  /\ (exists response',
        S3.PlanModifyString S3Example.pendingRequest S3Example.initialResponse
          = Returned response'
        /\ S3.response_PlanValue response' = StringValue "SingleAvailabilityZone"
        /\ IsUnknown (S3.response_PlanValue response') = false).
Proof.
  split; [reflexivity|]. split.
  - eexists. split; reflexivity.
  - eexists. split; [reflexivity|]. split; reflexivity.
Qed.

(** C1, amended. On every plan in which the planned value of
    [data_redundancy] is unknown and the location block has its one
    element, the plan modifier sets the planned value to a concrete default
    taken from the string of the location type: [SingleLocalZone] when it is
    [LocalZone], [SingleAvailabilityZone] otherwise, and so also when the
    location type is not yet known. *)
Theorem data_redundancy_default_from_location_type :
  forall (request : S3.StringRequest) (response : S3.StringResponse)
         (loc : S3.LocationInfo.locationInfoModel),
    IsUnknown (S3.request_PlanValue request) = true ->
    HasError (S3.response_Diagnostics response) = false ->
    Elements (S3.Location (S3.request_Plan request)) = [loc] ->
    exists v,
      S3.PlanModifyString request response
        = Returned (S3.mkStringResponse (StringValue v) (S3.response_Diagnostics response))
      /\ v = (if String.eqb (ValueString (S3.LocationInfo.Type' loc)) S3.LocationTypeLocalZone
              then S3.DataRedundancySingleLocalZone
              else S3.DataRedundancySingleAvailabilityZone)
      /\ (IsUnknown (S3.LocationInfo.Type' loc) = true ->
            v = S3.DataRedundancySingleAvailabilityZone).
Proof.
  intros request response loc Hunknown Hok Hloc.
  exists (S3.defaultDirectoryBucketDataRedundancy (S3.ValueEnum (S3.LocationInfo.Type' loc))).
  split; [|split].
  - unfold S3.PlanModifyString. rewrite Hunknown, Hok. simpl negb. cbv iota.
    unfold S3.ToPtr. rewrite Hloc. rewrite app_nil_r, Hok.
    now rewrite default_to_framework.
  - reflexivity.
  - destruct (S3.LocationInfo.Type' loc); try discriminate. reflexivity.
Qed.

Lemma data_redundancy_default_from_location_type_witness :
  exists v,
    S3.PlanModifyString S3Example.pendingRequest S3Example.initialResponse
      = Returned (S3.mkStringResponse (StringValue v) [])
    /\ v = S3.DataRedundancySingleAvailabilityZone.
Proof.
  destruct (data_redundancy_default_from_location_type
              S3Example.pendingRequest S3Example.initialResponse
              (S3.LocationInfo.mk (StringValue "usw2-az2") StringUnknown)
              eq_refl eq_refl eq_refl) as (v & Hrun & _ & Hv).
  exists v. split; [exact Hrun | exact (Hv eq_refl)].
Defined.



(** C5. The name validator of the directory bucket accepts
    ["b--usw2-az2--x-s3"], so that Create runs, and rejects ["my-bucket"]
    with an error before any remote call is made; and a known name passes
    the validator exactly when it matches the name pattern, that is, when
    it has the directory bucket format, which ends in ["--x-s3"]. *)
Theorem bucket_name_validation :
  (forall (remote : Type) (client : S3.S3ExpressClient remote)
          (plan : S3.directoryBucketResourceModel),
      S3.Bucket plan = StringValue "b--usw2-az2--x-s3" ->
      HasError (S3.validateBucket (S3.Bucket plan)) = false
      /\ S3.validateThenCreate plan = S3.Create plan)
  /\
  (forall (remote : Type) (client : S3.S3ExpressClient remote)
          (plan : S3.directoryBucketResourceModel)
          (w : Exec.world remote S3.call error),
      S3.Bucket plan = StringValue "my-bucket" ->
      exists diags,
        S3.validateThenCreate plan w = (Returned (S3.mkResponse diags None), w)
        /\ HasError diags = true)
  /\
  (forall s : string,
      HasError (S3.validateBucket (StringValue s)) = false
      <-> Regexp.matches S3.directoryBucketNameRegex s)
  /\
  (forall s : string,
      HasError (S3.validateBucket (StringValue s)) = false
      <-> S3.directoryBucketNameFormat s)
  /\
  (forall s : string, S3.directoryBucketNameFormat s -> S3.endsWith "--x-s3" s).
Proof.
  split; [|split; [|split; [|split]]].
  - intros remote client plan Hname. unfold S3.validateThenCreate.
    rewrite Hname. split; reflexivity.
  - intros remote client plan w Hname. unfold S3.validateThenCreate.
    rewrite Hname. eexists. split; reflexivity.
  - intros s. rewrite NameFacts.validateBucket_passes.
    apply RegexpFacts.MatchString_matches.
  - intros s. rewrite NameFacts.validateBucket_passes.
    rewrite RegexpFacts.MatchString_matches. apply NameFacts.regex_format.
  - intros s (name & seg & segs & -> & _).
    exists (name +:+ "--" +:+ seg +:+ S3.dashed segs).
    now rewrite !RegexpFacts.append_assoc.
Qed.

Lemma bucket_name_validation_witness :
  (HasError (S3.validateBucket (StringValue "b--usw2-az2--x-s3")) = false
   /\ S3.validateThenCreate (S3Example.plan "b--usw2-az2--x-s3")
      = S3.Create (remote := S3Example.buckets) (S3Example.plan "b--usw2-az2--x-s3"))
  /\
  (exists diags,
     S3.validateThenCreate (S3Example.plan "my-bucket") S3Example.noBucket
       = (Returned (S3.mkResponse diags None), S3Example.noBucket)
     /\ HasError diags = true)
  /\ S3.endsWith "--x-s3" "b--usw2-az2--x-s3".
Proof.
  split; [|split].
  - exact (proj1 bucket_name_validation _ _ (S3Example.plan "b--usw2-az2--x-s3") eq_refl).
  - exact (proj1 (proj2 bucket_name_validation) _ _
             (S3Example.plan "my-bucket") S3Example.noBucket eq_refl).
  - apply (proj2 (proj2 (proj2 (proj2 bucket_name_validation)))).
    apply (proj1 (proj2 (proj2 (proj2 bucket_name_validation)))). reflexivity.
Defined.

(** The resource is replaced exactly when some replacement-on-change
    attribute has known desired and prior values that differ. *)
Lemma requiresReplacement_iff {A : Type} `{!EqDecision A}
    (schema : list DiffEngine.AttributeSchema)
    (desired prior : gmap string (DiffEngine.Value A)) :
  DiffEngine.requiresReplacement schema desired prior = true <->
  exists a d p,
    In a schema /\ DiffEngine.replacementOnChange a = true
    /\ DiffEngine.valueOf desired a = DiffEngine.Known d
    /\ DiffEngine.valueOf prior a = DiffEngine.Known p
    /\ d <> p.
Proof.
  unfold DiffEngine.requiresReplacement. rewrite existsb_exists. split.
  - intros (a & Hin & Hmark). unfold DiffEngine.marksReplacement in Hmark.
    apply andb_true_iff in Hmark as [Hflag Hdiff].
    destruct (DiffEngine.valueOf desired a) as [| |d] eqn:Hd; try discriminate.
    destruct (DiffEngine.valueOf prior a) as [| |p] eqn:Hp; try discriminate.
    exists a, d, p. repeat split; try assumption.
    apply negb_true_iff, bool_decide_eq_false in Hdiff. exact Hdiff.
  - intros (a & d & p & Hin & Hflag & Hd & Hp & Hne).
    exists a. split; [assumption|]. unfold DiffEngine.marksReplacement.
    rewrite Hflag, Hd, Hp. simpl. apply negb_true_iff, bool_decide_eq_false. exact Hne.
Qed.

(** C6. For every attribute marked replacement-on-change whose desired value
    differs from its prior value, both known, the plan marks the whole
    resource as requiring replacement, whatever the other attributes of the
    same plan do; Update does not accept such a plan, and the plan is
    applied as a Delete followed by a Create. *)
Theorem replacement_on_change_replaces_resource :
  forall (A : Type) (eqA : EqDecision A)
         (schema : list DiffEngine.AttributeSchema)
         (desired prior : gmap string (DiffEngine.Value A))
         (a : DiffEngine.AttributeSchema) (d p : A),
    In a schema ->
    DiffEngine.replacementOnChange a = true ->
    desired !! DiffEngine.name a = Some (DiffEngine.Known d) ->
    prior !! DiffEngine.name a = Some (DiffEngine.Known p) ->
    d <> p ->
    DiffEngine.requiresReplacement schema desired prior = true
    /\ DiffEngine.UpdateAccepts schema desired prior = false
    /\ DiffEngine.apply schema desired prior
       = [DiffEngine.StepDelete; DiffEngine.StepCreate].
Proof.
  intros A eqA schema desired prior a d p Hin Hflag Hd Hp Hne.
  assert (Hreplace : DiffEngine.requiresReplacement schema desired prior = true).
  { apply requiresReplacement_iff. exists a, d, p.
    unfold DiffEngine.valueOf. rewrite Hd, Hp. repeat split; assumption. }
  unfold DiffEngine.apply, DiffEngine.UpdateAccepts. rewrite Hreplace.
  repeat split.
Qed.

Lemma replacement_on_change_replaces_resource_witness :
  DiffEngine.requiresReplacement DiffEngine.directoryBucketSchema
    DiffEngine.renamedDesired DiffEngine.renamedPrior = true
  /\ DiffEngine.UpdateAccepts DiffEngine.directoryBucketSchema
       DiffEngine.renamedDesired DiffEngine.renamedPrior = false
  /\ DiffEngine.apply DiffEngine.directoryBucketSchema
       DiffEngine.renamedDesired DiffEngine.renamedPrior
     = [DiffEngine.StepDelete; DiffEngine.StepCreate].
Proof.
  apply (replacement_on_change_replaces_resource string _
           DiffEngine.directoryBucketSchema
           DiffEngine.renamedDesired DiffEngine.renamedPrior
           (DiffEngine.mkAttribute "bucket" true false false true)
           "c--usw2-az2--x-s3" "b--usw2-az2--x-s3").
  - right. left. reflexivity.
  - reflexivity.
  - vm_compute. reflexivity.
  - vm_compute. reflexivity.
  - discriminate.
Defined.



End Lifecycle.

(** ** Further properties of the directory bucket *)

Module S3Properties.
Import Tf Errors S3.

(** *** Read *)

(** X1. A successful Read keeps the id, the region and [force_destroy] of the
    prior state and takes every other attribute from the remote answer: two
    prior states that agree on the three give the same response. This is
    what makes Read serve an import, where the prior state holds the id
    only. *)
Theorem Read_depends_on_id_only :
  forall (remote : Type) (client : S3ExpressClient remote)
         (state1 state2 : directoryBucketResourceModel)
         (w : Exec.world remote call error) resp w',
    ID state1 = ID state2 ->
    Region state1 = Region state2 ->
    ForceDestroy state1 = ForceDestroy state2 ->
    Read state1 w = (resp, w') ->
    HasError (Diagnostics resp) = false ->
    Read state2 w = (resp, w').
Proof.
  intros remote client state1 state2 w resp w' Hid Hregion Hforce.
  unfold Read. rewrite <- Hid, <- Hregion, <- Hforce. exec_unfold.
  destruct (findBucket (ValueString (ID state1)) (Exec.plane w)) as [[output|err] r1];
    exec_step; [auto|].
  destruct (NotFound (Some err)); [auto|].
  intros Hrun Herr. injection Hrun as <- _. discriminate.
Qed.

Lemma Read_depends_on_id_only_witness :
  exists resp w',
    Read (S3Example.bucket false) S3Example.emptyBucket = (resp, w')
    /\ Read {| Region := StringValue "us-west-2"; ARN := StringNull; Bucket := StringNull;
               DataRedundancy := StringNull; ForceDestroy := BoolValue false;
               Location := ListNull; ID := StringValue S3Example.bucketName;
               Type' := StringNull |} S3Example.emptyBucket = (resp, w').
Proof.
  eexists _, _. split; [vm_compute; reflexivity|].
  apply (Read_depends_on_id_only _ _ (S3Example.bucket false));
    [reflexivity | reflexivity | reflexivity | vm_compute; reflexivity | reflexivity].
Defined.

(** X2. Read-back after Create: the state that Create stored is read back with
    the same id, bucket, ARN, region and [force_destroy]; and when the remote
    reports the planned location, and the plan carried the default
    redundancy of that location and the directory type, the state read back
    is the state created. *)
Theorem Create_then_Read_is_stable :
  forall (remote : Type) (client : S3ExpressClient remote)
         (plan : directoryBucketResourceModel)
         (w : Exec.world remote call error) resp w1 st output r2,
    Create plan w = (Returned resp, w1) ->
    State resp = Some st ->
    findBucket (ValueString (Bucket plan)) (Exec.plane w1) = (inl output, r2) ->
    exists st' w2,
      Read st w1 = (mkResponse [] (Some st'), w2)
      /\ ID st' = ID st /\ Bucket st' = Bucket st /\ ARN st' = ARN st
      /\ Region st' = Region st /\ ForceDestroy st' = ForceDestroy st
      /\ (Location plan
            = ListValue [LocationInfo.mk (StringToFramework (BucketLocationName output))
                           (StringValue (BucketLocationType output))] ->
          DataRedundancy plan
            = StringValue (defaultDirectoryBucketDataRedundancy (BucketLocationType output)) ->
          Type' plan = StringValue BucketTypeDirectory ->
          st' = st).
Proof.
  intros remote client plan w resp w1 st output r2 Hcreate Hst Hfind.
  assert (Hcreated : st = mkModel (Region plan)
            (StringValue (arn (ValueString (Bucket plan)))) (Bucket plan)
            (DataRedundancy plan) (ForceDestroy plan) (Location plan) (Bucket plan)
            (Type' plan)).
  { revert Hcreate. unfold Create.
    destruct (ToPtr (Location plan)) as [[loc|] diags].
    - destruct (HasError diags).
      + intros Hrun. injection Hrun as <- _. discriminate.
      + exec_unfold.
        match goal with
        | |- context [CreateBucket ?i ?r] => destruct (CreateBucket i r) as [[e|] r1]
        end; exec_step; intros Hrun; injection Hrun as <- _; simpl in Hst.
        * discriminate.
        * now injection Hst as <-.
    - destruct (HasError diags); [|discriminate].
      intros Hrun. injection Hrun as <- _. discriminate. }
  subst st. unfold Read. exec_unfold. cbn [ID]. rewrite Hfind. exec_step.
  eexists _, _. split; [reflexivity|]. cbn [ID Bucket ARN Region ForceDestroy].
  repeat split.
  intros Hlocation Hredundancy Htype.
  unfold StringEnumValue. now rewrite Hlocation, Hredundancy, Htype.
Qed.

Lemma Create_then_Read_is_stable_witness :
  exists resp w1 st w2,
    Create (S3Example.plan S3Example.bucketName) S3Example.noBucket = (Returned resp, w1)
    /\ State resp = Some st
    /\ Read st w1 = (mkResponse [] (Some st), w2).
Proof.
  assert (exists resp w1 st,
            Create (S3Example.plan S3Example.bucketName) S3Example.noBucket
              = (Returned resp, w1)
            /\ State resp = Some st) as (resp & w1 & st & Hcreate & Hst)
    by (eexists _, _, _; split; vm_compute; reflexivity).
  edestruct (Create_then_Read_is_stable _ _ _ _ _ _ _
               (mkHeadBucketOutput (Some "usw2-az2") LocationTypeAvailabilityZone)
               (Exec.plane w1) Hcreate Hst)
    as (st' & w2 & Hread & _ & _ & _ & _ & _ & Hsame).
  { vm_compute in Hcreate. injection Hcreate as _ <-. reflexivity. }
  rewrite (Hsame eq_refl eq_refl eq_refl) in Hread.
  exists resp, w1, st, w2. auto.
Defined.

(** *** Delete *)

(** X3. The remote calls of a Delete are, in this order: one delete call; then
    a drain, only when that call answered the "not empty" conflict and
    [force_destroy] is set; then a second delete call, only when the drain
    returned no error. Delete never drains a bucket without
    [force_destroy], and never issues more than two delete calls. *)
Theorem Delete_call_discipline :
  forall (remote : Type) (client : S3ExpressClient remote)
         (state : directoryBucketResourceModel)
         (w : Exec.world remote call error) diags w',
    Delete state w = (diags, w') ->
    let delete := CallDeleteBucket (StringFromFramework (ID state)) in
    let drain := CallEmptyDirectoryBucket (ValueString (ID state)) in
    (exists e1,
        Exec.log w' = Exec.log w ++ [(delete, e1)]
        /\ ErrCodeEquals e1 errCodeBucketNotEmpty && ValueBool (ForceDestroy state) = false)
    \/ (exists e1 e,
          Exec.log w' = Exec.log w ++ [(delete, e1); (drain, Some e)]
          /\ ErrCodeEquals e1 errCodeBucketNotEmpty = true
          /\ ValueBool (ForceDestroy state) = true
          /\ HasError diags = true)
    \/ (exists e1 e2,
          Exec.log w' = Exec.log w ++ [(delete, e1); (drain, None); (delete, e2)]
          /\ ErrCodeEquals e1 errCodeBucketNotEmpty = true
          /\ ValueBool (ForceDestroy state) = true).
Proof.
  intros remote client state w diags w' Hrun delete drain.
  destruct (DeleteBucket (StringFromFramework (ID state)) (Exec.plane w)) as [err r1] eqn:Hdel.
  destruct (ErrCodeEquals err errCodeBucketNotEmpty) eqn:Hcode.
  - destruct (ValueBool (ForceDestroy state)) eqn:Hforce.
    + destruct (emptyDirectoryBucket (ValueString (ID state)) r1) as [[n [e|]] r2] eqn:Hdrain.
      * rewrite (S3Facts.Delete_conflict_drain_fails state w err r1 n e r2
                   Hdel Hcode Hforce Hdrain) in Hrun.
        injection Hrun as <- <-. right. left. exists err, e. auto.
      * destruct (DeleteBucket (StringFromFramework (ID state)) r2) as [err2 r3] eqn:Hdel2.
        rewrite (S3Facts.Delete_conflict_drained state w err r1 n r2 err2 r3
                   Hdel Hcode Hforce Hdrain Hdel2) in Hrun.
        injection Hrun as <- <-. right. right. exists err, err2. auto.
    + rewrite (S3Facts.Delete_conflict_no_force state w err r1 Hdel Hcode Hforce) in Hrun.
      injection Hrun as <- <-. left. exists err. rewrite Hcode. auto.
  - rewrite (S3Facts.Delete_plain state w err r1 Hdel Hcode) in Hrun.
    injection Hrun as <- <-. left. exists err. rewrite Hcode. auto.
Qed.

Lemma Delete_call_discipline_witness :
  exists diags w',
    Delete (S3Example.bucket true) S3Example.fullBucket = (diags, w')
    /\ length (Exec.log w') = 3.
Proof.
  assert (exists diags w',
            Delete (S3Example.bucket true) S3Example.fullBucket = (diags, w')
            /\ length (Exec.log w') = 3) as (diags & w' & Hrun & Hlen)
    by (eexists _, _; split; vm_compute; reflexivity).
  pose proof (Delete_call_discipline _ _ _ _ _ _ Hrun) as Hshape.
  exists diags, w'. destruct Hshape as [(e1 & Hlog & _) | [(e1 & e & Hlog & _) | _]].
  - rewrite Hlog in Hlen. discriminate.
  - rewrite Hlog in Hlen. discriminate.
  - auto.
Defined.

(** *** The plan modifier *)

(** What the plan modifier returns when it sets the default. *)
Lemma PlanModifyString_sets_default (request : StringRequest) (response : StringResponse)
    (loc : LocationInfo.locationInfoModel) :
  IsUnknown (request_PlanValue request) = true ->
  HasError (response_Diagnostics response) = false ->
  Elements (Location (request_Plan request)) = [loc] ->
  PlanModifyString request response
  = Returned (mkStringResponse
      (StringValue (defaultDirectoryBucketDataRedundancy (ValueEnum (LocationInfo.Type' loc))))
      (response_Diagnostics response)).
Proof.
  intros Hunknown Hok Hloc.
  unfold PlanModifyString. rewrite Hunknown, Hok. simpl negb. cbv iota.
  unfold ToPtr. rewrite Hloc. rewrite app_nil_r, Hok.
  now rewrite Lifecycle.default_to_framework.
Qed.

(** X4. The default that the plan modifier plans for a known location type is
    the value that Read stores for a bucket of that location type, so a
    bucket created with the planned default shows no change of
    [data_redundancy] after a refresh. *)
Theorem planned_default_is_what_Read_stores :
  forall (remote : Type) (client : S3ExpressClient remote)
         (request : StringRequest) (response : StringResponse)
         (loc : LocationInfo.locationInfoModel)
         (state : directoryBucketResourceModel)
         (w : Exec.world remote call error) output r',
    IsUnknown (request_PlanValue request) = true ->
    HasError (response_Diagnostics response) = false ->
    Elements (Location (request_Plan request)) = [loc] ->
    LocationInfo.Type' loc = StringValue (BucketLocationType output) ->
    findBucket (ValueString (ID state)) (Exec.plane w) = (inl output, r') ->
    exists planned st w',
      PlanModifyString request response = Returned planned
      /\ Read state w = (mkResponse [] (Some st), w')
      /\ response_PlanValue planned = DataRedundancy st.
Proof.
  intros remote client request response loc state w output r' Hunknown Hok Hloc Htype Hfind.
  pose proof (PlanModifyString_sets_default request response loc Hunknown Hok Hloc)
    as Hplan.
  eexists _, _, _. split; [exact Hplan|]. split.
  - unfold Read. exec_unfold. rewrite Hfind. exec_step. reflexivity.
  - cbn [response_PlanValue DataRedundancy]. rewrite Htype. reflexivity.
Qed.

Lemma planned_default_is_what_Read_stores_witness :
  exists planned st w',
    PlanModifyString
      (mkStringRequest StringUnknown
         (S3Example.plan S3Example.bucketName)) S3Example.initialResponse
      = Returned planned
    /\ Read (S3Example.bucket false) S3Example.emptyBucket = (mkResponse [] (Some st), w')
    /\ response_PlanValue planned = DataRedundancy st.
Proof.
  apply (planned_default_is_what_Read_stores _ _
           (mkStringRequest StringUnknown (S3Example.plan S3Example.bucketName))
           S3Example.initialResponse
           (LocationInfo.mk (StringValue "usw2-az2") (StringValue LocationTypeAvailabilityZone))
           (S3Example.bucket false) S3Example.emptyBucket
           (mkHeadBucketOutput (Some "usw2-az2") LocationTypeAvailabilityZone)
           [(S3Example.bucketName, 0)]);
    reflexivity.
Defined.

(** X5. The plan modifier is idempotent: run again on its own response, with
    the planned value it returned, it returns that response unchanged. The
    response it is first run with holds the planned value of the request, as
    the framework sets it up. *)
Theorem PlanModifyString_idempotent :
  forall (request : StringRequest) (response planned : StringResponse),
    response_PlanValue response = request_PlanValue request ->
    PlanModifyString request response = Returned planned ->
    PlanModifyString
      (mkStringRequest (response_PlanValue planned) (request_Plan request)) planned
    = Returned planned.
Proof.
  intros request response planned Hinit Hrun.
  unfold PlanModifyString in *. cbn [request_PlanValue request_Plan].
  destruct (IsUnknown (request_PlanValue request)) eqn:Hunknown; simpl negb in Hrun;
    cbv iota in Hrun.
  - destruct (HasError (response_Diagnostics response)) eqn:Herror.
    + injection Hrun as <-. rewrite Hinit, Hunknown, Herror. reflexivity.
    + destruct (ToPtr (Location (request_Plan request))) as [locationInfo diags].
      destruct (HasError (response_Diagnostics response ++ diags)) eqn:Herror'.
      * injection Hrun as <-. cbn [response_PlanValue response_Diagnostics].
        rewrite Hinit, Hunknown, Herror'. reflexivity.
      * destruct locationInfo as [loc|]; [|discriminate].
        injection Hrun as <-. cbn [response_PlanValue].
        rewrite Lifecycle.default_to_framework. reflexivity.
  - injection Hrun as <-. rewrite Hinit, Hunknown. reflexivity.
Qed.

Lemma PlanModifyString_idempotent_witness :
  exists planned,
    PlanModifyString S3Example.pendingRequest S3Example.initialResponse = Returned planned
    /\ PlanModifyString
         (mkStringRequest (response_PlanValue planned) S3Example.pendingPlan) planned
       = Returned planned.
Proof.
  eexists. split; [reflexivity|].
  apply (PlanModifyString_idempotent S3Example.pendingRequest S3Example.initialResponse);
    reflexivity.
Defined.

(** *** The name validator *)

Lemma zone_char_is_name_char (c : ascii) : isZoneChar c = true -> isNameChar c = true.
Proof. unfold isNameChar, isZoneChar. intros ->. reflexivity. Qed.

Lemma allChars_weaken (p q : ascii -> bool) (s : string) :
  (forall c, p c = true -> q c = true) ->
  Regexp.allChars p s = true -> Regexp.allChars q s = true.
Proof.
  intros Hpq. induction s as [|c s IH]; simpl; [auto|].
  intros H. apply andb_true_iff in H as [Hc Hs]. now rewrite (Hpq c Hc), IH.
Qed.

Lemma length_append (s1 s2 : string) :
  String.length (s1 +:+ s2) = String.length s1 + String.length s2.
Proof.
  induction s1 as [|c s1 IH]; [reflexivity|].
  rewrite RegexpFacts.append_cons. simpl. now rewrite IH.
Qed.

Lemma length_nonempty (s : string) : s <> "" -> 1 <= String.length s.
Proof. destruct s; [congruence | simpl; lia]. Qed.

(** Dash-separated segments hold name characters only, and at least two
    bytes for each segment. *)
Lemma dashed_chars (segs : list string) :
  Forall segment segs ->
  Regexp.allChars isNameChar (dashed segs) = true
  /\ 2 * length segs <= String.length (dashed segs).
Proof.
  induction 1 as [|seg segs [Hne Hseg] _ [IHc IHl]]; simpl; [split; [reflexivity | lia]|].
  rewrite !RegexpFacts.allChars_append, !length_append, IHc.
  rewrite (allChars_weaken _ _ seg zone_char_is_name_char Hseg).
  apply length_nonempty in Hne. simpl. split; [reflexivity | lia].
Qed.

(** X6. Every name that the validator accepts consists of digits, lower-case
    letters, dots and dashes only, and is at least twelve bytes long; a name
    with an upper-case letter, or a shorter one, is rejected. *)
Theorem accepted_names_are_lower_case :
  forall s : string,
    HasError (validateBucket (StringValue s)) = false ->
    Regexp.allChars isNameChar s = true /\ 12 <= String.length s.
Proof.
  intros s Hok. apply NameFacts.validateBucket_passes in Hok.
  apply RegexpFacts.MatchString_matches, NameFacts.regex_format in Hok.
  destruct Hok as (name & seg & segs & -> & Hne & Hname & Hsegs & Hall).
  inversion Hall as [|? ? [Hseg_ne Hseg] Hrest]; subst.
  destruct (dashed_chars segs Hrest) as [Hdashed Hlen].
  rewrite !RegexpFacts.allChars_append, !length_append, Hname, Hdashed.
  rewrite (allChars_weaken _ _ seg zone_char_is_name_char Hseg).
  apply length_nonempty in Hne, Hseg_ne.
  assert (1 <= length segs) by (destruct segs; [congruence | simpl; lia]).
  simpl. split; [reflexivity | lia].
Qed.

Lemma accepted_names_are_lower_case_witness :
  Regexp.allChars isNameChar "b--usw2-az2--x-s3" = true
  /\ 12 <= String.length "b--usw2-az2--x-s3".
Proof. apply accepted_names_are_lower_case. reflexivity. Defined.

End S3Properties.

(** ** Further properties of the connector profile *)

Module AppFlowProperties.
Import Tf Errors AppFlow.

Section Operations.
Context {ConnectorProfileConfig : Type}.
Context (expand : gmap string any -> ConnectorProfileConfig).
Context {remote : Type} `{!AppFlowClient (ConnectorProfileConfig := ConnectorProfileConfig) remote}.

Local Abbreviation call := (call (ConnectorProfileConfig := ConnectorProfileConfig)).
Local Abbreviation world := (Exec.world remote call error).

(** X7. The lookup by name issues one describe call for that name alone. It
    returns a profile exactly when the remote answered with that one
    profile; an error of the remote is passed on as it is; and every other
    answer (no output, no profile, several profiles) is an error of the
    not-found class. *)
Theorem find_returns_the_single_profile (name : string) (w : world) res w' :
  findConnectorProfileByName name w = (res, w') ->
  exists described,
    DescribeConnectorProfiles [name] (Exec.plane w) = (described, Exec.plane w')
    /\ Exec.log w' = Exec.log w ++ [(CallDescribeConnectorProfiles [name], errorOfSum described)]
    /\ (forall p, res = inl p <-> described = inl (Some [p]))
    /\ (forall e, described = inr e -> res = inr e)
    /\ (forall answer e, described = inl answer -> res = inr e -> NotFound (Some e) = true).
Proof.
  unfold findConnectorProfileByName. exec_unfold.
  destruct (DescribeConnectorProfiles [name] (Exec.plane w)) as [described r'] eqn:Hd.
  exec_step. intros H. exists described.
  destruct described as [[[|p [|p' ps]]|]|err]; injection H as <- <-; exec_step;
    (split; [reflexivity|]); (split; [reflexivity|]);
    (split; [intros q; split; intros Heq; try discriminate; congruence|]);
    (split; [intros e Heq; try discriminate; congruence|]);
    intros answer e Heq He; try discriminate; simpl in He; injection He as <-; reflexivity.
Qed.

(** X8. Read touches nothing but what it refreshes: it keeps the new-resource
    mark; it keeps the id, or clears it, and it clears it only for a
    resource that is not new, with no diagnostic and no attribute changed;
    when it reports an error the resource data are unchanged; and it never
    changes an attribute other than the seven it sets. *)
Theorem Read_frame (d : ResourceData) (w : world) d' diags w' :
  resourceConnectorProfileRead d w = (Returned (d', diags), w') ->
  IsNewResource d' = IsNewResource d
  /\ (Id d' = Id d
      \/ (Id d' = "" /\ IsNewResource d = false /\ diags = [] /\ attrs d' = attrs d))
  /\ (HasError diags = true -> d' = d)
  /\ (forall k,
        ~ In k ["arn"; "connection_mode"; "connector_label"; "connector_profile_config";
                "connector_type"; "credentials_arn"; "name"] ->
        attrs d' !! k = attrs d !! k).
Proof.
  intros Hrun.
  destruct (findConnectorProfileByName (Id d) w) as [[cp|err] w1] eqn:Hfind.
  - rewrite (AppFlowFacts.Read_found d w cp w1 Hfind) in Hrun.
    destruct (flattenConnectorProfileConfig _ _) as [config|]; [|discriminate].
    injection Hrun as <- <- <-. split; [reflexivity|]. split; [left; reflexivity|].
    split; [discriminate|].
    intros k Hk. unfold refreshed, Set'. cbn [attrs].
    rewrite !lookup_insert_ne; [reflexivity|..]; intros <-; apply Hk; simpl; tauto.
  - destruct (negb (IsNewResource d) && NotFound (Some err)) eqn:Hnf.
    + pose proof Hnf as Hnf'. apply andb_true_iff in Hnf' as [Hnew Hnf'].
      apply negb_true_iff in Hnew.
      rewrite (AppFlowFacts.profile_Read_not_found d w err w1 Hnew Hfind Hnf') in Hrun.
      injection Hrun as <- <- <-. split; [reflexivity|].
      split; [right; auto|]. split; [discriminate | reflexivity].
    + rewrite (AppFlowFacts.Read_error d w err w1 Hfind Hnf) in Hrun.
      injection Hrun as <- <- <-. split; [reflexivity|]. split; [left; reflexivity|].
      split; reflexivity.
Qed.

(** X9. After a Read that found the profile, the six scalar attributes read
    back the members of the remote answer, the empty string for a nil
    member. *)
Theorem Read_stores_the_answer (d : ResourceData) (w : world) connectorProfile d' diags w' :
  findConnectorProfileByName (Id d) w = (inl connectorProfile, w') ->
  resourceConnectorProfileRead d w = (Returned (d', diags), w') ->
  GetString d' "arn" = ToString (ConnectorProfileArn connectorProfile)
  /\ GetString d' "connection_mode" = ConnectionMode connectorProfile
  /\ GetString d' "connector_label" = ToString (ConnectorLabel connectorProfile)
  /\ GetString d' "connector_type" = ConnectorType connectorProfile
  /\ GetString d' "credentials_arn" = ToString (CredentialsArn connectorProfile)
  /\ GetString d' "name" = ToString (ConnectorProfileName connectorProfile).
Proof.
  intros Hfind Hrun.
  rewrite (AppFlowFacts.Read_found d w connectorProfile w' Hfind) in Hrun.
  destruct (flattenConnectorProfileConfig _ _) as [config|]; [|discriminate].
  injection Hrun as <- <-.
  unfold GetString, refreshed, Set'. cbn [attrs].
  repeat split;
    repeat (rewrite lookup_insert_ne by discriminate); rewrite lookup_insert_eq;
    try reflexivity;
    match goal with |- context [ofStringPtr ?p] => destruct p; reflexivity end.
Qed.


(** X11. The remote calls of Create, Update and Delete. Create issues the create
    call and, only when it succeeded, one lookup by the configured name;
    Update issues the update call and, only when it succeeded, one lookup by
    the id; a failed first call leaves the resource data as they were.
    Delete issues the one delete call, by the configured name. *)
Theorem profile_call_sequences (d : ResourceData) (w : world) :
  (forall d' diags w',
      resourceConnectorProfileCreate expand d w = (Returned (d', diags), w') ->
      exists input,
        (exists e,
            Exec.log w' = Exec.log w ++ [(CallCreateConnectorProfile input, Some e)]
            /\ d' = d /\ HasError diags = true)
        \/ (exists answer,
              Exec.log w' = Exec.log w ++
                [(CallCreateConnectorProfile input, None);
                 (CallDescribeConnectorProfiles [GetString d "name"], answer)]))
  /\
  (forall d' diags w',
      resourceConnectorProfileUpdate expand d w = (Returned (d', diags), w') ->
      exists input,
        (exists e,
            Exec.log w' = Exec.log w ++ [(CallUpdateConnectorProfile input, Some e)]
            /\ d' = d /\ HasError diags = true)
        \/ (exists answer,
              Exec.log w' = Exec.log w ++
                [(CallUpdateConnectorProfile input, None);
                 (CallDescribeConnectorProfiles [Id d], answer)]))
  /\
  (forall diags w',
      resourceConnectorProfileDelete d w = (diags, w') ->
      exists answer,
        Exec.log w' = Exec.log w ++
          [(CallDeleteConnectorProfile (Some (GetString d "name")), answer)]).
Proof.
  split; [|split].
  - intros d' diags w'. unfold resourceConnectorProfileCreate.
    destruct (configOf expand d) as [config|]; [|discriminate].
    exec_unfold.
    match goal with
    | |- context [CreateConnectorProfile ?i ?r] =>
        set (input := i); destruct (CreateConnectorProfile input r) as [[e|] r1]
    end; exec_step.
    + intros Hrun. injection Hrun as <- <- <-. exists input. left. exists e. auto.
    + match goal with
      | |- context [resourceConnectorProfileRead ?d2 ?w1] =>
          destruct (resourceConnectorProfileRead d2 w1) as [r w2] eqn:Hread;
          destruct (findConnectorProfileByName (Id d2) w1) as [res w3] eqn:Hfind
      end.
      intros Hrun. injection Hrun as _ <-.
      destruct (AppFlowFacts.find_log _ _ _ _ Hfind) as (described & _ & Hlog & _).
      assert (w2 = w3) as ->.
      { revert Hread. unfold resourceConnectorProfileRead. exec_unfold.
        match goal with
        | |- context [findConnectorProfileByName ?n ?w0] =>
            change (findConnectorProfileByName n w0)
              with (findConnectorProfileByName (Id (SetId d (GetString d "name"))) w0)
        end.
        rewrite Hfind.
        destruct res as [cp|err];
          [destruct (flattenConnectorProfileConfig _ _)
          |destruct (negb _ && NotFound (Some err))];
          intros Hrun; now injection Hrun as _ <-. }
      exists input. right. eexists. rewrite Hlog. cbn [Exec.log SetId Id].
      now rewrite <- app_assoc.
  - intros d' diags w'. unfold resourceConnectorProfileUpdate.
    destruct (configOf expand d) as [config|]; [|discriminate].
    exec_unfold.
    match goal with
    | |- context [UpdateConnectorProfile ?i ?r] =>
        set (input := i); destruct (UpdateConnectorProfile input r) as [[e|] r1]
    end; exec_step.
    + intros Hrun. injection Hrun as <- <- <-. exists input. left. exists e. auto.
    + match goal with
      | |- context [resourceConnectorProfileRead ?d2 ?w1] =>
          destruct (resourceConnectorProfileRead d2 w1) as [r w2] eqn:Hread;
          destruct (findConnectorProfileByName (Id d2) w1) as [res w3] eqn:Hfind
      end.
      intros Hrun. injection Hrun as _ <-.
      destruct (AppFlowFacts.find_log _ _ _ _ Hfind) as (described & _ & Hlog & _).
      assert (w2 = w3) as ->.
      { revert Hread. unfold resourceConnectorProfileRead. exec_unfold.
        rewrite Hfind.
        destruct res as [cp|err];
          [destruct (flattenConnectorProfileConfig _ _)
          |destruct (negb _ && NotFound (Some err))];
          intros Hrun; now injection Hrun as _ <-. }
      exists input. right. eexists. rewrite Hlog. cbn [Exec.log].
      now rewrite <- app_assoc.
  - intros diags w'. unfold resourceConnectorProfileDelete. exec_unfold.
    destruct (DeleteConnectorProfile (Some (GetString d "name")) (Exec.plane w))
      as [err r1]; exec_step.
    destruct (IsAResourceNotFoundException err); [|destruct err];
      intros Hrun; injection Hrun as _ <-; eexists; reflexivity.
Qed.
End Operations.

Lemma find_returns_the_single_profile_witness :
  exists described,
    DescribeConnectorProfiles ["p"] (Exec.plane AppFlowExample.oneProfile)
      = (described, [AppFlowExample.slackProfile])
    /\ (forall p, @inl _ error AppFlowExample.slackProfile = inl p
                  <-> described = inl (Some [p])).
Proof.
  destruct (find_returns_the_single_profile "p" AppFlowExample.oneProfile
              (inl AppFlowExample.slackProfile)
              (Exec.mkWorld [AppFlowExample.slackProfile]
                 [(CallDescribeConnectorProfiles ["p"], None)]))
    as (described & Hcall & _ & Hres & _); [vm_compute; reflexivity|].
  exists described. split; [exact Hcall | exact Hres].
Defined.

Lemma Read_frame_witness :
  exists d' diags w',
    resourceConnectorProfileRead AppFlowExample.profileData AppFlowExample.oneProfile
      = (Returned (d', diags), w')
    /\ IsNewResource d' = false
    /\ forall k,
         ~ In k ["arn"; "connection_mode"; "connector_label"; "connector_profile_config";
                 "connector_type"; "credentials_arn"; "name"] ->
         attrs d' !! k = attrs AppFlowExample.profileData !! k.
Proof.
  assert (exists d' diags w',
            resourceConnectorProfileRead AppFlowExample.profileData AppFlowExample.oneProfile
            = (Returned (d', diags), w')) as (d' & diags & w' & Hrun)
    by (eexists _, _, _; vm_compute; reflexivity).
  destruct (Read_frame _ _ _ _ _ Hrun) as (Hnew & _ & _ & Hframe).
  exists d', diags, w'. split; [exact Hrun|]. split; [exact Hnew | exact Hframe].
Defined.

Lemma Read_stores_the_answer_witness :
  exists d' diags w',
    resourceConnectorProfileRead AppFlowExample.profileData AppFlowExample.oneProfile
      = (Returned (d', diags), w')
    /\ GetString d' "arn" = "arn:aws:appflow:us-west-2:123456789012:connectorprofile/p"
    /\ GetString d' "connector_label" = ""
    /\ GetString d' "name" = "p".
Proof.
  assert (Hfind :
    findConnectorProfileByName (Id AppFlowExample.profileData) AppFlowExample.oneProfile
    = (inl AppFlowExample.slackProfile,
       Exec.mkWorld [AppFlowExample.slackProfile]
         [(CallDescribeConnectorProfiles ["p"], None)]))
    by (vm_compute; reflexivity).
  pose proof (AppFlowFacts.Read_found _ _ _ _ Hfind) as Hrun.
  cbn [flattenConnectorProfileConfig ConnectorProfileProperties'
       AppFlowExample.slackProfile] in Hrun.
  destruct (Read_stores_the_answer _ _ _ _ _ _ Hfind Hrun)
    as (Harn & _ & Hlabel & _ & _ & Hname).
  eexists _, _, _. split; [exact Hrun|]. split; [exact Harn|]. split; [exact Hlabel | exact Hname].
Defined.


Lemma profile_call_sequences_witness :
  (exists d' diags w' input,
     resourceConnectorProfileCreate AppFlowExample.expand
       AppFlowSamples.newProfileData AppFlowExample.noProfile = (Returned (d', diags), w')
     /\ ((exists e,
            Exec.log w' = Exec.log AppFlowExample.noProfile
                            ++ [(CallCreateConnectorProfile input, Some e)]
            /\ d' = AppFlowSamples.newProfileData /\ HasError diags = true)
         \/ (exists answer,
               Exec.log w' = Exec.log AppFlowExample.noProfile ++
                 [(CallCreateConnectorProfile input, None);
                  (CallDescribeConnectorProfiles
                     [GetString AppFlowSamples.newProfileData "name"], answer)])))
  /\
  (exists d' diags w' input,
     resourceConnectorProfileUpdate AppFlowExample.expand
       AppFlowExample.profileData AppFlowExample.noProfile = (Returned (d', diags), w')
     /\ ((exists e,
            Exec.log w' = Exec.log AppFlowExample.noProfile
                            ++ [(CallUpdateConnectorProfile input, Some e)]
            /\ d' = AppFlowExample.profileData /\ HasError diags = true)
         \/ (exists answer,
               Exec.log w' = Exec.log AppFlowExample.noProfile ++
                 [(CallUpdateConnectorProfile input, None);
                  (CallDescribeConnectorProfiles [Id AppFlowExample.profileData], answer)])))
  /\
  (exists diags w' answer,
     resourceConnectorProfileDelete AppFlowExample.profileData AppFlowExample.oneProfile
       = (diags, w')
     /\ Exec.log w' = Exec.log AppFlowExample.oneProfile ++
          [(CallDeleteConnectorProfile (Some (GetString AppFlowExample.profileData "name")),
            answer)]).
Proof.
  pose proof (profile_call_sequences AppFlowExample.expand
                AppFlowSamples.newProfileData AppFlowExample.noProfile)
    as (Hcreate & _ & _).
  pose proof (profile_call_sequences AppFlowExample.expand
                AppFlowExample.profileData AppFlowExample.noProfile)
    as (_ & Hupdate & _).
  pose proof (profile_call_sequences AppFlowExample.expand
                AppFlowExample.profileData AppFlowExample.oneProfile)
    as (_ & _ & Hdelete).
  split; [|split].
  - assert (exists d' diags w',
              resourceConnectorProfileCreate AppFlowExample.expand
                AppFlowSamples.newProfileData AppFlowExample.noProfile
              = (Returned (d', diags), w'))
      as (d' & diags & w' & Hrun)
      by (eexists _, _, _; vm_compute; reflexivity).
    destruct (Hcreate _ _ _ Hrun) as (input & Hlog).
    exists d', diags, w', input. split; [exact Hrun | exact Hlog].
  - assert (exists d' diags w',
              resourceConnectorProfileUpdate AppFlowExample.expand
                AppFlowExample.profileData AppFlowExample.noProfile
              = (Returned (d', diags), w'))
      as (d' & diags & w' & Hrun)
      by (eexists _, _, _; vm_compute; reflexivity).
    destruct (Hupdate _ _ _ Hrun) as (input & Hlog).
    exists d', diags, w', input. split; [exact Hrun | exact Hlog].
  - destruct (resourceConnectorProfileDelete AppFlowExample.profileData
                AppFlowExample.oneProfile) as [diags w'] eqn:Hrun.
    destruct (Hdelete _ _ eq_refl) as (answer & Hlog).
    exists diags, w', answer. split; [reflexivity | exact Hlog].
Defined.

End AppFlowProperties.

(** ** The blocks of the connector profile properties *)

Module AppFlowBlockFacts.
Import Tf AppFlow AppFlowExpand AppFlowBlocks.

Lemma lookup_setWhen_eq {A} (p : option A) (key : string) (v : A -> any) (m : gmap string any) :
  setWhen p key v m !! key = match p with Some x => Some (v x) | None => m !! key end.
Proof. destruct p; simpl; [apply lookup_insert_eq | reflexivity]. Qed.

Lemma lookup_setWhen_ne {A} (p : option A) (key k : string) (v : A -> any)
    (m : gmap string any) :
  key <> k -> setWhen p key v m !! k = m !! k.
Proof. intros Hne. destruct p; simpl; [now apply lookup_insert_ne | reflexivity]. Qed.

Lemma in_keyWhen {A} (p : option A) (key k : string) :
  In k (keyWhen p key) <-> is_Some p /\ key = k.
Proof.
  destruct p as [x|]; simpl.
  - split; [intros [<-|[]]; eauto | intros [_ <-]; now left].
  - split; [intros [] | intros [[x Hx] _]; discriminate].
Qed.

Lemma is_Some_setWhen {A} (p : option A) (key k : string) (v : A -> any)
    (m : gmap string any) :
  is_Some (setWhen p key v m !! k) <-> In k (keyWhen p key) \/ is_Some (m !! k).
Proof.
  rewrite in_keyWhen. destruct (decide (key = k)) as [<-|Hne].
  - rewrite lookup_setWhen_eq. destruct p as [x|].
    + split; [intros _; left; eauto | eauto].
    + split; [now right | intros [[[x Hx] _]|H]; [discriminate | exact H]].
  - rewrite lookup_setWhen_ne by exact Hne. split; [now right | intros [[_ H]|H]; tauto].
Qed.

(** The writes to the one map leave the instance URL of the last write. *)
Lemma instance_writes (writes : list (option InstanceProperties.t)) (written : option string) :
  fold_left (fun m p => setInstanceUrl p m) writes (instanceMap written)
  = instanceMap (lastWrite writes written).
Proof.
  revert written. induction writes as [|p writes IH]; intros written; [reflexivity|].
  cbn [fold_left lastWrite]. destruct p as [x|]; cbn [setInstanceUrl setWhen].
  - rewrite <- (IH (Some _)). f_equal. destruct written as [url|]; cbn [instanceMap].
    + apply insert_singleton_eq.
    + reflexivity.
  - apply IH.
Qed.

Lemma sharedInstanceMap_last (cpp : ConnectorProfileProperties) :
  sharedInstanceMap cpp = instanceMap (lastWrite (instanceUrlWrites cpp) None).
Proof. rewrite <- instance_writes. reflexivity. Qed.

Ltac lookup_chain :=
  repeat first
    [ rewrite lookup_insert_eq
    | rewrite lookup_insert_ne by discriminate
    | rewrite lookup_setWhen_eq
    | rewrite lookup_setWhen_ne by discriminate
    | rewrite lookup_empty ].

(** The block of a connector without a flatten function of its own is the
    one shared map. *)
Lemma shared_block (cpp : ConnectorProfileProperties) (k : string) :
  In k sharedKeys ->
  In k (presentKeys cpp) ->
  blockOf (flattenConnectorProfileProperties cpp) !! k
  = Some (VList [VMap (sharedInstanceMap cpp)]).
Proof.
  intros Hshared Hpresent.
  unfold presentKeys in Hpresent. rewrite !in_app_iff, !in_keyWhen in Hpresent.
  unfold flattenConnectorProfileProperties. cbn [blockOf].
  generalize (sharedInstanceMap cpp). intros m.
  unfold sharedKeys in Hshared. cbn [In] in Hshared.
  repeat (destruct Hshared as [<-|Hshared];
          [lookup_chain;
           repeat (destruct Hpresent as [[Hset Hkey]|Hpresent]; try discriminate Hkey);
           try (destruct Hpresent as [Hset Hkey]; try discriminate Hkey);
           destruct Hset as [x ->]; reflexivity|]).
  destruct Hshared.
Qed.

(** X12. [flattenConnectorProfileProperties] returns one map whose keys are
    exactly the connectors whose member of the properties is set: no block
    is made up and no set connector is left out. *)
Theorem flattened_blocks_are_the_set_connectors (cpp : ConnectorProfileProperties)
    (k : string) :
  is_Some (blockOf (flattenConnectorProfileProperties cpp) !! k) <-> In k (presentKeys cpp).
Proof.
  unfold flattenConnectorProfileProperties, presentKeys. cbn [blockOf].
  rewrite !is_Some_setWhen, !in_app_iff, lookup_empty.
  split; [|tauto]. intros H.
  repeat (destruct H as [H|H]; [tauto|]). destruct H as [x Hx]. discriminate.
Qed.

(** X13. The connectors without a flatten function of their own share one
    map: every such block that is present holds the same map, and that map
    holds the instance URL of the last connector, in the order of the
    writes, that has one, whichever connector the block belongs to. *)
Theorem shared_blocks_show_the_last_instance_url (cpp : ConnectorProfileProperties)
    (k : string) :
  In k sharedKeys ->
  In k (presentKeys cpp) ->
  blockOf (flattenConnectorProfileProperties cpp) !! k
  = Some (VList [VMap (instanceMap (lastWrite (instanceUrlWrites cpp) None))]).
Proof.
  intros Hshared Hpresent.
  rewrite (shared_block cpp k Hshared Hpresent).
  unfold sharedInstanceMap, instanceUrlWrites.
  change (∅ : gmap string any) with (instanceMap None).
  do 4 f_equal.
  exact (instance_writes
           [Datadog cpp; Dynatrace cpp; InforNexus cpp; Marketo cpp;
            ServiceNow cpp; Slack cpp; Veeva cpp; Zendesk cpp] None).
Qed.

Lemma shared_blocks_show_the_last_instance_url_witness :
  blockOf (flattenConnectorProfileProperties AppFlowSamples.mixedProperties) !! "amplitude"
  = Some (VList [VMap {[ "instance_url" := VString "https://zendesk.example" ]}])
  /\ blockOf (flattenConnectorProfileProperties AppFlowSamples.mixedProperties) !! "datadog"
     = Some (VList [VMap {[ "instance_url" := VString "https://zendesk.example" ]}]).
Proof.
  split.
  - apply (shared_blocks_show_the_last_instance_url AppFlowSamples.mixedProperties "amplitude");
      simpl; tauto.
  - apply (shared_blocks_show_the_last_instance_url AppFlowSamples.mixedProperties "datadog");
      simpl; tauto.
Defined.

(** *** Expand functions *)

Lemma assertString_cases (m : gmap string any) (key : string) :
  (exists s, m !! key = Some (VString s) /\ assertString m key = Returned s)
  \/ (~ holdsString m key /\ assertString m key = Panicked).
Proof.
  unfold assertString, holdsString.
  destruct (m !! key) as [[]|]; try (right; split; [intros [s Hs]; discriminate | reflexivity]).
  left. eauto.
Qed.

Lemma assertString_holds (m : gmap string any) (key s : string) :
  m !! key = Some (VString s) -> assertString m key = Returned s.
Proof. unfold assertString. now intros ->. Qed.

Lemma nonEmptyString_missingOrNonEmpty (m : gmap string any) (key : string) :
  missingOrNonEmpty m key ->
  m !! key = VString <$> nonEmptyString m key.
Proof.
  unfold nonEmptyString. intros [Hnone | (s & Hs & Hsome)].
  - now rewrite Hnone.
  - rewrite Hsome. apply String.eqb_neq in Hs. now rewrite Hs.
Qed.

Lemma lookup_setWhen_string (p : option string) (key k : string) (m : gmap string any) :
  setWhen p key VString m !! k
  = if decide (key = k)
    then match p with Some s => Some (VString s) | None => m !! k end
    else m !! k.
Proof.
  case_decide as Hk.
  - subst k. apply lookup_setWhen_eq.
  - now apply lookup_setWhen_ne.
Qed.

Ltac lookup_any :=
  repeat (rewrite lookup_insert || rewrite lookup_setWhen_string); rewrite lookup_empty.

(** X14. What an instance URL connector sends is what is read back: when
    the expand function of one of the eight connectors returns on a block,
    and the properties hold its result with no other of the eight set, the
    flattened block of that connector is the map with the configured
    instance URL and nothing else. *)
Theorem instance_url_round_trip (key : string)
    (expandProperties : gmap string any -> Result InstanceProperties.t)
    (member : ConnectorProfileProperties -> option InstanceProperties.t)
    (m : gmap string any) (p : InstanceProperties.t) (cpp : ConnectorProfileProperties) :
  In (key, expandProperties, member) instanceConnectors ->
  expandProperties m = Returned p ->
  member cpp = Some p ->
  (forall key' expandProperties' member',
      In (key', expandProperties', member') instanceConnectors ->
      key' <> key -> member' cpp = None) ->
  exists url,
    m !! "instance_url" = Some (VString url)
    /\ blockOf (flattenConnectorProfileProperties cpp) !! key
       = Some (VList [VMap {[ "instance_url" := VString url ]}]).
Proof.
  intros Hin Hexpand Hmember Hothers.
  assert (exists url, m !! "instance_url" = Some (VString url)
                      /\ p = InstanceProperties.mk (Some url)) as (url & Hurl & ->).
  { unfold instanceConnectors in Hin. cbn [In] in Hin.
    destruct (assertString_cases m "instance_url") as [(url & Hurl & Hs) | (_ & Hs)];
      repeat (destruct Hin as [Hin|Hin];
              [injection Hin as <- <- <-; revert Hexpand;
               unfold expandDatadogConnectorProfileProperties,
                 expandDynatraceConnectorProfileProperties,
                 expandInforNexusConnectorProfileProperties,
                 expandMarketoConnectorProfileProperties,
                 expandServiceNowConnectorProfileProperties,
                 expandSlackConnectorProfileProperties,
                 expandVeevaConnectorProfileProperties,
                 expandZendeskConnectorProfileProperties;
               rewrite Hs; cbn; intros Hexpand;
               try discriminate; injection Hexpand as <-; eauto|]);
      destruct Hin. }
  exists url. split; [exact Hurl|].
  assert (Hlast : lastWrite (instanceUrlWrites cpp) None = Some url).
  { pose proof (Hothers _ _ _ (or_introl eq_refl)) as H1.
    pose proof (Hothers _ _ _ (or_intror (or_introl eq_refl))) as H2.
    pose proof (Hothers _ _ _ (or_intror (or_intror (or_introl eq_refl)))) as H3.
    pose proof (Hothers _ _ _ (or_intror (or_intror (or_intror (or_introl eq_refl))))) as H4.
    pose proof (Hothers _ _ _
                  (or_intror (or_intror (or_intror (or_intror (or_introl eq_refl)))))) as H5.
    pose proof (Hothers _ _ _
                  (or_intror (or_intror (or_intror (or_intror
                     (or_intror (or_introl eq_refl))))))) as H6.
    pose proof (Hothers _ _ _
                  (or_intror (or_intror (or_intror (or_intror
                     (or_intror (or_intror (or_introl eq_refl)))))))) as H7.
    pose proof (Hothers _ _ _
                  (or_intror (or_intror (or_intror (or_intror
                     (or_intror (or_intror (or_intror (or_introl eq_refl))))))))) as H8.
    unfold instanceConnectors in Hin. cbn [In] in Hin.
    unfold instanceUrlWrites.
    repeat (destruct Hin as [Hin|Hin];
            [injection Hin as <- <- <-; rewrite Hmember;
             rewrite ?H1, ?H2, ?H3, ?H4, ?H5, ?H6, ?H7, ?H8 by discriminate;
             reflexivity|]).
    destruct Hin. }
  rewrite shared_block.
  - rewrite sharedInstanceMap_last, Hlast. reflexivity.
  - unfold instanceConnectors in Hin. cbn [In] in Hin. unfold sharedKeys. cbn [In].
    repeat (destruct Hin as [Hin|Hin]; [injection Hin as <- _ _; tauto|]). destruct Hin.
  - unfold presentKeys. rewrite !in_app_iff, !in_keyWhen.
    unfold instanceConnectors in Hin. cbn [In] in Hin.
    repeat (destruct Hin as [Hin|Hin];
            [injection Hin as <- <- <-; rewrite Hmember; intuition eauto|]).
    destruct Hin.
Qed.

Lemma instance_url_round_trip_witness :
  exists url,
    AppFlowSamples.slackBlock !! "instance_url" = Some (VString url)
    /\ blockOf (flattenConnectorProfileProperties AppFlowExample.slackProperties) !! "slack"
       = Some (VList [VMap {[ "instance_url" := VString url ]}]).
Proof.
  apply (instance_url_round_trip "slack" expandSlackConnectorProfileProperties Slack
           AppFlowSamples.slackBlock (InstanceProperties.mk (Some "https://example.slack.com"))
           AppFlowExample.slackProperties).
  - simpl; tauto.
  - reflexivity.
  - reflexivity.
  - intros key' expandProperties' member' Hin Hne. simpl in Hin.
    repeat (destruct Hin as [Hin|Hin];
            [injection Hin as <- <- <-; first [reflexivity | now destruct Hne]|]).
    destruct Hin.
Defined.

(** X15. [expandRedshiftConnectorProfileProperties] returns exactly when
    the five keys it asserts hold strings; on any other block the type
    assertion panics. *)
Theorem Redshift_expand_returns_iff (m : gmap string any) :
  (exists p, expandRedshiftConnectorProfileProperties m = Returned p)
  <-> Forall (holdsString m) redshiftRequired.
Proof.
  unfold expandRedshiftConnectorProfileProperties, redshiftRequired. split.
  - intros [p Hp]. revert Hp.
    destruct (assertString_cases m "bucket_name") as [(s1 & H1 & ->) | (_ & ->)];
      [|discriminate].
    destruct (assertString_cases m "cluster_identifier") as [(s2 & H2 & ->) | (_ & ->)];
      [|discriminate].
    destruct (assertString_cases m "role_arn") as [(s3 & H3 & ->) | (_ & ->)];
      [|discriminate].
    destruct (assertString_cases m "data_api_role_arn") as [(s4 & H4 & ->) | (_ & ->)];
      [|discriminate].
    destruct (assertString_cases m "database_name") as [(s5 & H5 & ->) | (_ & ->)];
      [|discriminate].
    intros _. repeat constructor; unfold holdsString; eauto.
  - intros Hall.
    repeat match goal with
           | H : Forall _ (_ :: _) |- _ => apply Forall_cons_1 in H; destruct H as [[? ?] H]
           end.
    repeat match goal with
           | H : m !! _ = Some (VString _) |- _ => rewrite (assertString_holds _ _ _ H); clear H
           end.
    eexists. reflexivity.
Qed.

(** X16. Flatten then expand of the Redshift properties always returns,
    and it returns the properties up to what the block cannot tell apart:
    a nil required member comes back as the empty string, and an optional
    member that is the empty string comes back as nil. *)
Theorem Redshift_flatten_then_expand (p : Redshift.t) :
  expandRedshiftConnectorProfileProperties
    (blockOf (flattenRedshiftConnectorProfileProperties p))
  = Returned {|
      Redshift.BucketName := Some (ToString (Redshift.BucketName p));
      Redshift.BucketPrefix := dropEmpty (Redshift.BucketPrefix p);
      Redshift.DatabaseUrl := dropEmpty (Redshift.DatabaseUrl p);
      Redshift.RoleArn := Some (ToString (Redshift.RoleArn p));
      Redshift.ClusterIdentifier := Some (ToString (Redshift.ClusterIdentifier p));
      Redshift.DataApiRoleArn := Some (ToString (Redshift.DataApiRoleArn p));
      Redshift.DatabaseName := Some (ToString (Redshift.DatabaseName p))
    |}.
Proof.
  unfold expandRedshiftConnectorProfileProperties, flattenRedshiftConnectorProfileProperties,
    assertString, nonEmptyString.
  cbn [blockOf]. lookup_chain.
  destruct (Redshift.BucketPrefix p), (Redshift.DatabaseUrl p); reflexivity.
Qed.

(** X17. Expand then flatten of a Redshift block gives the block back, when
    the block holds strings under the five required keys, nothing or a
    string that is not empty under the two optional keys, and no other
    key. *)
Theorem Redshift_expand_then_flatten (m : gmap string any) :
  Forall (holdsString m) redshiftRequired ->
  Forall (missingOrNonEmpty m) redshiftOptional ->
  (forall k, is_Some (m !! k) -> In k (redshiftRequired ++ redshiftOptional)) ->
  exists p,
    expandRedshiftConnectorProfileProperties m = Returned p
    /\ flattenRedshiftConnectorProfileProperties p = VList [VMap m].
Proof.
  unfold redshiftRequired, redshiftOptional. intros Hrequired Hoptional Hkeys.
  repeat match goal with
         | H : Forall _ (_ :: _) |- _ => apply Forall_cons_1 in H; destruct H as [? H]
         end.
  repeat match goal with
         | H : holdsString _ _ |- _ => destruct H as [? H]
         | H : missingOrNonEmpty _ _ |- _ => apply nonEmptyString_missingOrNonEmpty in H
         end.
  unfold expandRedshiftConnectorProfileProperties.
  repeat match goal with
         | H : m !! _ = Some (VString _) |- _ => rewrite (assertString_holds _ _ _ H)
         end.
  eexists. split; [reflexivity|].
  unfold flattenRedshiftConnectorProfileProperties. cbn. do 3 f_equal.
  apply map_eq. intros k.
  lookup_any.
  repeat case_decide; subst; try discriminate;
    try match goal with
        | H : m !! ?key = _ |- _ = m !! ?key => rewrite H
        end;
    try (now destruct (nonEmptyString m _)).
  destruct (m !! k) eqn:Hk; [|reflexivity].
  destruct (Hkeys k) as [|Hin]; [eauto| |]; try congruence.
  cbn [app In] in Hin. intuition congruence.
Qed.

Lemma Redshift_expand_then_flatten_witness :
  exists p,
    expandRedshiftConnectorProfileProperties AppFlowSamples.redshiftBlock = Returned p
    /\ flattenRedshiftConnectorProfileProperties p = VList [VMap AppFlowSamples.redshiftBlock].
Proof.
  apply Redshift_expand_then_flatten.
  - repeat (apply List.Forall_cons; [eexists; vm_compute; reflexivity|]).
    apply List.Forall_nil.
  - apply List.Forall_cons; [|apply List.Forall_cons; [|apply List.Forall_nil]].
    + right. exists "logs". split; [discriminate | vm_compute; reflexivity].
    + left. vm_compute. reflexivity.
  - intros k Hk. unfold AppFlowSamples.redshiftBlock in Hk.
    rewrite !lookup_insert, lookup_singleton in Hk. cbn [app In redshiftRequired redshiftOptional].
    repeat case_decide; subst; try tauto. destruct Hk as [x Hx]. discriminate.
Defined.

(** X18. Flatten then expand of the Salesforce properties gives the
    properties back, but for an instance URL that is the empty string,
    which comes back as nil; in particular the expand function never
    panics. *)
Theorem Salesforce_flatten_then_expand (p : Salesforce.t) :
  expandSalesforceConnectorProfileProperties
    (blockOf (flattenSalesforceConnectorProfileProperties p))
  = {| Salesforce.InstanceUrl := dropEmpty (Salesforce.InstanceUrl p);
       Salesforce.IsSandboxEnvironment := Salesforce.IsSandboxEnvironment p;
       Salesforce.UsePrivateLinkForMetadataAndAuthorization :=
         Salesforce.UsePrivateLinkForMetadataAndAuthorization p |}.
Proof.
  unfold expandSalesforceConnectorProfileProperties,
    flattenSalesforceConnectorProfileProperties, nonEmptyString, boolOrFalse.
  cbn [blockOf]. lookup_chain.
  destruct (Salesforce.InstanceUrl p); reflexivity.
Qed.

(** X19. The private link service name of a Snowflake block is sent and
    never read back: on a well-formed block the expand function returns
    properties that hold the configured name, and flattening those
    properties gives the block without that key, every other key as
    configured. *)
Theorem Snowflake_private_link_is_not_read_back (m : gmap string any) :
  Forall (holdsString m) snowflakeRequired ->
  Forall (missingOrNonEmpty m) snowflakeOptional ->
  (forall k, is_Some (m !! k) -> In k (snowflakeRequired ++ snowflakeOptional)) ->
  exists p,
    expandSnowflakeConnectorProfileProperties m = Returned p
    /\ (VString <$> SnowflakeRequest.PrivateLinkServiceName p)
       = m !! "private_link_service_name"
    /\ flattenSnowflakeConnectorProfileProperties (SnowflakeRequest.read p)
       = VList [VMap (delete "private_link_service_name" m)].
Proof.
  unfold snowflakeRequired, snowflakeOptional. intros Hrequired Hoptional Hkeys.
  repeat match goal with
         | H : Forall _ (_ :: _) |- _ => apply Forall_cons_1 in H; destruct H as [? H]
         end.
  repeat match goal with
         | H : holdsString _ _ |- _ => destruct H as [? H]
         | H : missingOrNonEmpty _ _ |- _ => apply nonEmptyString_missingOrNonEmpty in H
         end.
  unfold expandSnowflakeConnectorProfileProperties.
  repeat match goal with
         | H : m !! _ = Some (VString _) |- _ => rewrite (assertString_holds _ _ _ H)
         end.
  eexists. split; [reflexivity|]. cbn [SnowflakeRequest.PrivateLinkServiceName].
  split; [congruence|].
  unfold flattenSnowflakeConnectorProfileProperties. cbn. do 3 f_equal.
  apply map_eq. intros k.
  rewrite lookup_delete.
  lookup_any.
  repeat case_decide; subst; try discriminate; try congruence;
    try match goal with
        | H : m !! ?key = _ |- _ = m !! ?key => rewrite H
        end;
    try (now destruct (nonEmptyString m _)).
  destruct (m !! k) eqn:Hk; [|reflexivity].
  destruct (Hkeys k) as [|Hin]; [eauto| |]; try congruence.
  cbn [app In] in Hin. intuition congruence.
Qed.

Lemma Snowflake_private_link_is_not_read_back_witness :
  exists p,
    expandSnowflakeConnectorProfileProperties AppFlowSamples.snowflakeBlock = Returned p
    /\ (VString <$> SnowflakeRequest.PrivateLinkServiceName p)
       = AppFlowSamples.snowflakeBlock !! "private_link_service_name"
    /\ flattenSnowflakeConnectorProfileProperties (SnowflakeRequest.read p)
       = VList [VMap (delete "private_link_service_name" AppFlowSamples.snowflakeBlock)].
Proof.
  apply Snowflake_private_link_is_not_read_back.
  - repeat (apply List.Forall_cons; [eexists; vm_compute; reflexivity|]).
    apply List.Forall_nil.
  - repeat (apply List.Forall_cons;
            [first [ left; vm_compute; reflexivity
                   | right; eexists; split; [|vm_compute; reflexivity]; discriminate ]|]).
    apply List.Forall_nil.
  - intros k Hk. unfold AppFlowSamples.snowflakeBlock in Hk.
    rewrite !lookup_insert, lookup_singleton in Hk.
    cbn [app In snowflakeRequired snowflakeOptional].
    repeat case_decide; subst; try tauto. destruct Hk as [x Hx]. discriminate.
Defined.

End AppFlowBlockFacts.
